(** * darglint: the integrity checker

    A shallow embedding of [darglint/integrity_checker.py] and the
    properties of its check battery, suppression resolver and report
    assembly.

    The checker is a Python object mutated by its methods, some of which
    can raise.  Methods are embedded in a state-and-exception monad over
    the record of the object's attributes; a raised exception keeps the
    mutations made before it, as in Python. *)

From Stdlib Require Import ZArith String Ascii.
From stdpp Require Import base list gmap strings sorting.

Local Open Scope string_scope.
Local Open Scope list_scope.

Set Warnings "-clear-no-such-hyp".

(** ** Collaborator data, as the checker reads it *)

(** [docstring.base.DocstringStyle]: the two members the checker
    dispatches on. *)
Inductive DocstringStyle := GOOGLE | SPHINX.

(** Modelled from the spec: [config.Strictness] is declared outside this
    file; the checker only compares a level against [FULL_DESCRIPTION] and
    hands it to the docstring. *)
Inductive Strictness := ANY_DESCRIPTION | SHORT_DESCRIPTION | FULL_DESCRIPTION.

(** [docstring.base.Sections]: the members the checker names. *)
Inductive Sections :=
| ARGUMENTS_SECTION | RETURNS_SECTION | YIELDS_SECTION
| RAISES_SECTION | VARIABLES_SECTION.

#[global] Instance DocstringStyle_eq_dec : EqDecision DocstringStyle.
Proof. solve_decision. Defined.
#[global] Instance Strictness_eq_dec : EqDecision Strictness.
Proof. solve_decision. Defined.
#[global] Instance Sections_eq_dec : EqDecision Sections.
Proof. solve_decision. Defined.

(** The classes of [errors.py] the checker instantiates.  A style error
    class comes from the docstring parser and is known by its name. *)
Inductive ErrorClass :=
| MissingParameter | ExcessParameter
| ParameterTypeMismatch | ParameterTypeMissing
| MissingReturn | ExcessReturn | ReturnTypeMismatch
| MissingYield | ExcessYield
| MissingRaise | ExcessRaise
| ExcessVariable
| StyleViolation (cls : string).

#[global] Instance ErrorClass_eq_dec : EqDecision ErrorClass.
Proof. solve_decision. Defined.

(** A pair of line numbers, [Tuple[int, int]]. *)
Abbreviation LineNumbers := (Z * Z)%type.

(** The [ast.FunctionDef] node a description carries in [function.function];
    the checker reads its [lineno]. *)
Module FunctionDef.
Record t := mk { name : string; lineno : Z }.
End FunctionDef.

(** [function_description.FunctionDescription], as a method finds the
    object when it is called.  [variables] is handed out once: the field
    holds what iterating [function.variables] still yields at the call,
    and the one place that iterates it, [set(function.variables)] in
    [_check_variables], leaves nothing behind (see [exhausted]). *)
Module FunctionDescription.
Record t := mk {
  function : FunctionDef.t;
  argument_names : list string;
  argument_types : list (option string);
  return_type : option string;
  has_return : bool;
  has_yield : bool;
  raises : gset string;
  variables : list string;
  docstring : option string;
}.
End FunctionDescription.

(** What [get_types] returns: a single type for a section without items,
    a list of optional types for a section with items. *)
Inductive DocTypes :=
| TypeStr (s : string)
| TypeList (l : list (option string)).

(** [docstring.base.BaseDocstring], by the methods and attributes the
    checker calls.  [get_section] is only tested for truth. *)
Record BaseDocstring := {
  get_section : Sections -> bool;
  get_items : Sections -> option (list string);
  get_types : Sections -> option DocTypes;
  get_noqas : gmap string (list string);
  get_line_numbers : string -> option LineNumbers;
  get_line_numbers_for_value : string -> string -> option LineNumbers;
  get_style_errors : list (string * option LineNumbers);
  satisfies_strictness : Strictness -> bool;
  ignore_all : bool;
}.

(** [config.Configuration]. *)
Record Configuration := {
  ignore : list string;
  message_template : option string;
  style : DocstringStyle;
  strictness : Strictness;
}.

(** [errors.DarglintError]: an instance records its class, the function
    node it is about and the keyword arguments it was built with. *)
Module DarglintError.
Record t := mk {
  cls : ErrorClass;
  function : FunctionDef.t;
  name : option string;
  expected : option string;
  actual : option string;
  line_numbers : option LineNumbers;
}.
End DarglintError.

#[global] Instance FunctionDef_eq_dec : EqDecision FunctionDef.t.
Proof. solve_decision. Defined.
#[global] Instance DarglintError_eq_dec : EqDecision DarglintError.t.
Proof. solve_decision. Defined.

Definition MissingParameterError fn name line_numbers :=
  DarglintError.mk MissingParameter fn (Some name) None None line_numbers.
Definition ExcessParameterError fn name line_numbers :=
  DarglintError.mk ExcessParameter fn (Some name) None None line_numbers.
Definition ParameterTypeMismatchError fn name expected actual line_numbers :=
  DarglintError.mk ParameterTypeMismatch fn (Some name)
                   (Some expected) (Some actual) line_numbers.
Definition ParameterTypeMissingError fn name line_numbers :=
  DarglintError.mk ParameterTypeMissing fn (Some name) None None line_numbers.
Definition MissingReturnError fn :=
  DarglintError.mk MissingReturn fn None None None None.
Definition ExcessReturnError fn line_numbers :=
  DarglintError.mk ExcessReturn fn None None None line_numbers.
Definition ReturnTypeMismatchError fn expected actual line_numbers :=
  DarglintError.mk ReturnTypeMismatch fn None
                   (Some expected) (Some actual) line_numbers.
Definition MissingYieldError fn :=
  DarglintError.mk MissingYield fn None None None None.
Definition ExcessYieldError fn line_numbers :=
  DarglintError.mk ExcessYield fn None None None line_numbers.
Definition MissingRaiseError fn name :=
  DarglintError.mk MissingRaise fn (Some name) None None None.
Definition ExcessRaiseError fn name line_numbers :=
  DarglintError.mk ExcessRaise fn (Some name) None None line_numbers.
Definition ExcessVariableError fn name line_numbers :=
  DarglintError.mk ExcessVariable fn (Some name) None None line_numbers.
Definition StyleError cls fn line_numbers :=
  DarglintError.mk (StyleViolation cls) fn None None None line_numbers.

(** [error_report.ErrorReport], by what its constructor keeps of its
    arguments. *)
Module ErrorReport.
Record t := mk {
  errors : list DarglintError.t;
  filename : string;
  verbosity : Z;
  message_template : option string;
}.
End ErrorReport.

(** ** Python values *)

(** [x or y] on optional values whose present form is truthy. *)
Definition or_else {A} (x : option A) (y : option A) : option A :=
  match x with Some _ => x | None => y end.

(** [get_items(...) or []]. *)
Definition items_or_empty (x : option (list string)) : list string :=
  match x with Some l => l | None => [] end.

(** [get_types(...) or []], then iterated by [zip]: a string iterates as
    its characters. *)
Definition types_or_empty (x : option DocTypes) : list (option string) :=
  match x with
  | None => []
  | Some (TypeList l) => l
  | Some (TypeStr s) =>
      map (fun c => Some (String c EmptyString)) (list_ascii_of_string s)
  end.

(** An insertion-ordered [dict]: assigning to a key that is present
    keeps its place. *)
Fixpoint dict_set {V} (k : string) (v : V) (d : list (string * V))
  : list (string * V) :=
  match d with
  | [] => [(k, v)]
  | (k', v') :: d' =>
      if decide (k' = k) then (k, v) :: d' else (k', v') :: dict_set k v d'
  end.

Definition dict {V} (pairs : list (string * V)) : list (string * V) :=
  foldl (fun d kv => dict_set kv.1 kv.2 d) [] pairs.

Fixpoint dict_get {V} (k : string) (d : list (string * V)) : option V :=
  match d with
  | [] => None
  | (k', v) :: d' => if decide (k' = k) then Some v else dict_get k d'
  end.

(** [set(xs)] and iteration over a set; the order of iteration is the
    one [elements] fixes. *)
Definition set_of (xs : list string) : gset string := list_to_set xs.

(** [name in names] on a list. *)
Definition in_list (x : string) (xs : list string) : bool :=
  bool_decide (x ∈ xs).

(** [list.sort(key=...)]: stable, ascending by key. *)
Fixpoint sort_insert {A} (key : A -> Z) (x : A) (l : list A) : list A :=
  match l with
  | [] => [x]
  | y :: l' =>
      if decide (key x <= key y)%Z then x :: y :: l'
      else y :: sort_insert key x l'
  end.

Definition list_sort {A} (key : A -> Z) (l : list A) : list A :=
  foldr (sort_insert key) [] l.

(** Modelled from the spec: the constructor of [error_report.ErrorReport],
    which is not in this file.  Report generation "performs a stable sort
    of the Finding Collection by the owning unit's source position (ties
    broken by discovery order)": the constructor sorts the list it is
    handed.  That list is the checker's own [self.errors], not a copy, so
    the checker's collection is in the same order afterwards. *)
Definition sorted_by_position (errors : list DarglintError.t)
  : list DarglintError.t :=
  list_sort (fun x => FunctionDef.lineno (DarglintError.function x)) errors.

(** ** The checker object and its methods *)

Inductive Exception :=
| ParserException (msg : string)
| AttributeError
| RuntimeError.

(** [concurrent.futures.ThreadPoolExecutor].  The pool is embedded along
    the schedule in which a submitted task has run to completion when
    [submit] returns; the task's outcome is kept in its future, which is
    where an exception raised by the task ends up. *)
Module ThreadPoolExecutor.
Record t := mk {
  _shutdown : bool;
  futures : list (option Exception);
}.
End ThreadPoolExecutor.

Record IntegrityChecker := {
  errors : list DarglintError.t;
  _sorted : bool;
  config : Configuration;
  raise_errors : bool;
  executor : ThreadPoolExecutor.t;
  docstring : option BaseDocstring;
}.

Definition set_errors (l : list DarglintError.t) (self : IntegrityChecker) :=
  {| errors := l; _sorted := _sorted self; config := config self;
     raise_errors := raise_errors self; executor := executor self;
     docstring := docstring self |}.
Definition set__sorted (b : bool) (self : IntegrityChecker) :=
  {| errors := errors self; _sorted := b; config := config self;
     raise_errors := raise_errors self; executor := executor self;
     docstring := docstring self |}.
Definition set_executor (e : ThreadPoolExecutor.t) (self : IntegrityChecker) :=
  {| errors := errors self; _sorted := _sorted self; config := config self;
     raise_errors := raise_errors self; executor := e;
     docstring := docstring self |}.
Definition set_docstring (d : BaseDocstring) (self : IntegrityChecker) :=
  {| errors := errors self; _sorted := _sorted self; config := config self;
     raise_errors := raise_errors self; executor := executor self;
     docstring := Some d |}.

Inductive result (A : Type) :=
| Return (a : A)
| Raise (e : Exception).
Arguments Return {A} a.
Arguments Raise {A} e.

(** A method: from the object before the call to the outcome and the
    object after it. *)
Definition M (A : Type) : Type := IntegrityChecker -> result A * IntegrityChecker.

#[global] Instance M_ret : MRet M := fun A a self => (Return a, self).
#[global] Instance M_bind : MBind M := fun A B f m self =>
  match m self with
  | (Return a, self') => f a self'
  | (Raise e, self') => (Raise e, self')
  end.

Definition raise {A} (e : Exception) : M A := fun self => (Raise e, self).
Definition get {A} (attr : IntegrityChecker -> A) : M A :=
  fun self => (Return (attr self), self).
Definition modify (f : IntegrityChecker -> IntegrityChecker) : M unit :=
  fun self => (Return tt, f self).

(** [self.docstring.<attr>]: the class attribute is [None] until a run
    assigns it. *)
Definition self_docstring : M BaseDocstring :=
  d ← get docstring;
  match d with
  | Some d => mret d
  | None => raise AttributeError
  end.

(** [self.errors.append(e)]. *)
Definition append (e : DarglintError.t) : M unit :=
  modify (fun self => set_errors (errors self ++ [e]) self).

(** [for x in xs: body]. *)
Fixpoint for_ {A} (xs : list A) (body : A -> M unit) : M unit :=
  match xs with
  | [] => mret tt
  | x :: xs' => body x;; for_ xs' body
  end.

Definition pass : M unit := mret tt.

(** [message_template or self.config.message_template]: an empty string
    is false. *)
Definition template_or (x y : option string) : option string :=
  match x with
  | Some EmptyString | None => y
  | Some _ => x
  end.

Definition default_config : Configuration :=
  {| ignore := []; message_template := None;
     style := GOOGLE; strictness := FULL_DESCRIPTION |}.

(** [IntegrityChecker.__init__]. *)
Definition __init__ (config : Configuration) (raise_errors : bool)
  : IntegrityChecker :=
  {| errors := []; _sorted := true; config := config;
     raise_errors := raise_errors;
     executor := ThreadPoolExecutor.mk false [];
     docstring := None |}.

(** [executor.submit(task)]: refused after shutdown; otherwise the task
    runs and whatever it raises is stored in the future that [submit]
    returns, not raised to the caller.  The pool has four workers, so
    tasks of the program can overlap and finish in any order; the
    embedding follows the one schedule in which each task is over when
    [submit] returns.  What is stated below about several scheduled units
    is kept to what does not depend on the schedule: no order between the
    findings of different runs, and no two runs of different units that
    both get to read [self.docstring]. *)
Definition submit (task : M unit) : M unit :=
  ex ← get executor;
  if ThreadPoolExecutor._shutdown ex then raise RuntimeError
  else fun self =>
    let '(outcome, self') := task self in
    let ex' := executor self' in
    let future := match outcome with Return _ => None | Raise e => Some e end in
    (Return tt,
     set_executor (ThreadPoolExecutor.mk
                     (ThreadPoolExecutor._shutdown ex')
                     (ThreadPoolExecutor.futures ex' ++ [future])) self').

(** [executor.shutdown()]: waits for the tasks, raises nothing. *)
Definition shutdown : M unit :=
  modify (fun self =>
    set_executor (ThreadPoolExecutor.mk
                    true (ThreadPoolExecutor.futures (executor self))) self).

Section Checker.

(** [error.error_code], a class attribute of each class of [errors.py]. *)
Variable error_code : ErrorClass -> string.

(** [Docstring.from_google] and [Docstring.from_sphinx]: the parser
    either builds the docstring or raises. *)
Variable from_google : string -> result BaseDocstring.
Variable from_sphinx : string -> result BaseDocstring.

Definition call {A} (r : result A) : M A := fun self => (r, self).

Definition _ignore_error (error : ErrorClass) : M bool :=
  let error_code_ := error_code error in
  cfg ← get config;
  if bool_decide (error_code_ ∈ ignore cfg) then mret true
  else
    d ← self_docstring;
    let noqa_lookup := get_noqas d in
    match noqa_lookup !! error_code_ with
    | Some [] => mret true
    | _ => mret false
    end.

Definition _remove_ignored (missing : gset string) (error : ErrorClass)
  : M (gset string) :=
  let error_code_ := error_code error in
  ignored ← _ignore_error error;
  if ignored : bool then mret ∅
  else
    d ← self_docstring;
    let noqa_lookup := get_noqas d in
    match noqa_lookup !! error_code_ with
    | None => mret missing
    | Some names => mret (missing ∖ set_of names)
    end.

Definition _check_parameter_types (function : FunctionDescription.t)
  : M unit :=
  let error_code_ := error_code ParameterTypeMismatch in
  ignored ← _ignore_error ParameterTypeMismatch;
  if ignored : bool then pass
  else
    d ← self_docstring;
    let argument_types :=
      dict (zip (items_or_empty (get_items d ARGUMENTS_SECTION))
                (types_or_empty (get_types d ARGUMENTS_SECTION))) in
    let doc_arg_types :=
      map (fun name =>
             match dict_get name argument_types with
             | None => None
             | Some t => t
             end)
          (FunctionDescription.argument_names function) in
    d ← self_docstring;
    let noqa_lookup := get_noqas d in
    for_ (zip (FunctionDescription.argument_names function)
              (zip (FunctionDescription.argument_types function)
                   doc_arg_types))
         (fun '(name, (expected, actual)) =>
            match expected, actual with
            | Some expected, Some actual =>
                let name_has_noqa :=
                  match noqa_lookup !! error_code_ with
                  | Some names => in_list name names
                  | None => false
                  end in
                if negb (bool_decide (expected = actual) || name_has_noqa)
                then
                  d ← self_docstring;
                  let default_line_numbers :=
                    get_line_numbers d "arguments-section" in
                  d ← self_docstring;
                  let line_numbers :=
                    or_else (get_line_numbers_for_value d "ident" name)
                            default_line_numbers in
                  append (ParameterTypeMismatchError
                            (FunctionDescription.function function)
                            name expected actual line_numbers)
                else pass
            | _, _ => pass
            end).

Definition _check_parameter_types_missing (function : FunctionDescription.t)
  : M unit :=
  let error_code_ := error_code ParameterTypeMissing in
  ignored ← _ignore_error ParameterTypeMissing;
  if ignored : bool then pass
  else
    d ← self_docstring;
    let argument_types :=
      dict (zip (items_or_empty (get_items d ARGUMENTS_SECTION))
                (types_or_empty (get_types d ARGUMENTS_SECTION))) in
    d ← self_docstring;
    let noqa_lookup := get_noqas d in
    for_ argument_types
         (fun '(name, argument_type) =>
            let name_has_no_qa :=
              match noqa_lookup !! error_code_ with
              | Some names => in_list name names
              | None => false
              end in
            match argument_type with
            | None =>
                if negb name_has_no_qa then
                  d ← self_docstring;
                  let default_line_numbers :=
                    get_line_numbers d "arguments-section" in
                  d ← self_docstring;
                  let line_numbers :=
                    or_else (get_line_numbers_for_value d "ident" name)
                            default_line_numbers in
                  append (ParameterTypeMissingError
                            (FunctionDescription.function function)
                            name line_numbers)
                else pass
            | Some _ => pass
            end).

Definition _check_return_type (function : FunctionDescription.t) : M unit :=
  ignored ← _ignore_error ReturnTypeMismatch;
  if ignored : bool then pass
  else
    let fun_type := FunctionDescription.return_type function in
    d ← self_docstring;
    let doc_type := get_types d RETURNS_SECTION in
    let doc_type :=
      match doc_type with
      | None | Some (TypeStr EmptyString) | Some (TypeList _) => None
      | Some (TypeStr s) => Some s
      end in
    match fun_type, doc_type with
    | Some fun_type, Some doc_type =>
        if bool_decide (fun_type ≠ doc_type) then
          d ← self_docstring;
          let line_numbers := get_line_numbers d "returns-section" in
          append (ReturnTypeMismatchError
                    (FunctionDescription.function function)
                    fun_type doc_type line_numbers)
        else pass
    | _, _ => pass
    end.

Definition _check_yield (function : FunctionDescription.t) : M unit :=
  d ← self_docstring;
  let doc_yield := get_section d YIELDS_SECTION in
  let fun_yield := FunctionDescription.has_yield function in
  ignore_missing ← _ignore_error MissingYield;
  ignore_excess ← _ignore_error ExcessYield;
  if fun_yield && negb doc_yield && negb ignore_missing then
    append (MissingYieldError (FunctionDescription.function function))
  else if doc_yield && negb fun_yield && negb ignore_excess then
    d ← self_docstring;
    let line_numbers := get_line_numbers d "yields-section" in
    append (ExcessYieldError (FunctionDescription.function function)
                             line_numbers)
  else pass.

Definition _check_return (function : FunctionDescription.t) : M unit :=
  d ← self_docstring;
  let doc_return := get_section d RETURNS_SECTION in
  let fun_return := FunctionDescription.has_return function in
  ignore_missing ← _ignore_error MissingReturn;
  ignore_excess ← _ignore_error ExcessReturn;
  if fun_return && negb doc_return && negb ignore_missing then
    append (MissingReturnError (FunctionDescription.function function))
  else if doc_return && negb fun_return && negb ignore_excess then
    d ← self_docstring;
    let line_numbers := get_line_numbers d "returns-section" in
    append (ExcessReturnError (FunctionDescription.function function)
                              line_numbers)
  else pass.

Definition _check_parameters (function : FunctionDescription.t) : M unit :=
  d ← self_docstring;
  let docstring_arguments :=
    set_of (items_or_empty (get_items d ARGUMENTS_SECTION)) in
  let actual_arguments :=
    set_of (FunctionDescription.argument_names function) in
  let missing_in_doc := actual_arguments ∖ docstring_arguments in
  missing_in_doc ← _remove_ignored missing_in_doc MissingParameter;
  d ← self_docstring;
  let default_line_numbers := get_line_numbers d "arguments-section" in
  for_ (elements (missing_in_doc : gset string))
       (fun missing =>
          append (MissingParameterError
                    (FunctionDescription.function function)
                    missing default_line_numbers));;
  let missing_in_function := docstring_arguments ∖ actual_arguments in
  missing_in_function ← _remove_ignored missing_in_function ExcessParameter;
  for_ (elements (missing_in_function : gset string))
       (fun missing =>
          d ← self_docstring;
          let line_numbers :=
            or_else (get_line_numbers_for_value d "arguments-section" missing)
                    default_line_numbers in
          append (ExcessParameterError
                    (FunctionDescription.function function)
                    missing line_numbers)).

Definition _check_variables (function : FunctionDescription.t) : M unit :=
  d ← self_docstring;
  let described_variables :=
    set_of (items_or_empty (get_items d VARIABLES_SECTION)) in
  let actual_variables :=
    set_of (FunctionDescription.variables function) in
  let excess_in_doc := described_variables ∖ actual_variables in
  d ← self_docstring;
  let default_line_numbers := get_line_numbers d "variables-section" in
  for_ (elements excess_in_doc)
       (fun excess =>
          d ← self_docstring;
          let line_numbers :=
            or_else (get_line_numbers_for_value d "variables-section" excess)
                    default_line_numbers in
          append (ExcessVariableError
                    (FunctionDescription.function function)
                    excess line_numbers)).

Definition _check_style (function : FunctionDescription.t) : M unit :=
  d ← self_docstring;
  for_ (get_style_errors d)
       (fun '(StyleError_, line_numbers) =>
          append (StyleError StyleError_
                             (FunctionDescription.function function)
                             line_numbers)).

Definition _check_raises (function : FunctionDescription.t) : M unit :=
  d ← self_docstring;
  let exception_types := get_items d RAISES_SECTION in
  let docstring_raises := set_of (items_or_empty exception_types) in
  let actual_raises := FunctionDescription.raises function in
  let missing_in_doc := actual_raises ∖ docstring_raises in
  missing_in_doc ← _remove_ignored missing_in_doc MissingRaise;
  for_ (elements (missing_in_doc : gset string))
       (fun missing =>
          append (MissingRaiseError
                    (FunctionDescription.function function) missing));;
  let missing_in_function := docstring_raises ∖ actual_raises in
  missing_in_function ← _remove_ignored missing_in_function ExcessRaise;
  d ← self_docstring;
  let default_line_numbers := get_line_numbers d "raises-section" in
  for_ (elements (missing_in_function : gset string))
       (fun missing =>
          d ← self_docstring;
          let line_numbers :=
            or_else (get_line_numbers_for_value d "raises-section" missing)
                    default_line_numbers in
          append (ExcessRaiseError
                    (FunctionDescription.function function)
                    missing line_numbers)).

Definition run_checks (function : FunctionDescription.t) : M unit :=
  match FunctionDescription.docstring function with
  | None => pass
  | Some text =>
      cfg ← get config;
      match style cfg with
      | GOOGLE =>
          d ← call (from_google text);
          modify (set_docstring d)
      | SPHINX =>
          d ← call (from_sphinx text);
          modify (set_docstring d);;
          _check_variables function
      end;;
      cfg ← get config;
      satisfied ←
        (if bool_decide (strictness cfg ≠ FULL_DESCRIPTION) then
           d ← self_docstring;
           mret (satisfies_strictness d (strictness cfg))
         else mret false);
      if satisfied : bool then pass
      else
        d ← self_docstring;
        if ignore_all d then pass
        else
          _check_parameters function;;
          _check_parameter_types function;;
          _check_parameter_types_missing function;;
          _check_return function;;
          _check_return_type function;;
          _check_yield function;;
          _check_raises function;;
          _check_style function;;
          modify (set__sorted false)
  end.

Definition schedule (function : FunctionDescription.t) : M unit :=
  match FunctionDescription.docstring function with
  | None => pass
  | Some _ => submit (run_checks function)
  end.

Definition _sort : M unit :=
  sorted ← get _sorted;
  if negb sorted then
    modify (fun self =>
      set_errors
        (list_sort (fun x => FunctionDef.lineno (DarglintError.function x))
                   (errors self))
        self);;
    modify (set__sorted true)
  else pass.

Definition get_error_report (verbosity : Z) (filename : string)
           (message_template_ : option string) : M ErrorReport.t :=
  shutdown;;
  errors_ ← get errors;
  cfg ← get config;
  modify (set_errors (sorted_by_position errors_));;
  mret (ErrorReport.mk (sorted_by_position errors_) filename verbosity
          (template_or message_template_ (message_template cfg))).

End Checker.

(** ** Observing a call *)

(** The object with [l] appended to [self.errors]. *)
Definition add_errors (l : list DarglintError.t) (self : IntegrityChecker)
  : IntegrityChecker :=
  set_errors (errors self ++ l) self.

(** What a call appended to [self.errors]. *)
Definition appended {A} (m : M A) (self : IntegrityChecker)
  : list DarglintError.t :=
  drop (length (errors self)) (errors (m self).2).

(** [m] returns [a] and leaves the object as it was, on every object that
    holds docstring [d] and configuration [cfg]. *)
Definition yields {A} (d : BaseDocstring) (cfg : Configuration)
           (m : M A) (a : A) : Prop :=
  forall self, docstring self = Some d -> config self = cfg ->
            m self = (Return a, self).

(** [m] returns normally and does nothing but append [l]. *)
Definition appends (d : BaseDocstring) (cfg : Configuration)
           (m : M unit) (l : list DarglintError.t) : Prop :=
  forall self, docstring self = Some d -> config self = cfg ->
            m self = (Return tt, add_errors l self).

(** [m] appends some errors, each of which satisfies [P]. *)
Definition emits (P : DarglintError.t -> Prop) (d : BaseDocstring)
           (cfg : Configuration) (m : M unit) : Prop :=
  exists l, appends d cfg m l /\ Forall P l.

(** ** The suppression resolver, in the words of its contract *)

Definition is_kind_suppressed (cfg : Configuration) (d : BaseDocstring)
           (code : string) : bool :=
  bool_decide (code ∈ ignore cfg)
  || bool_decide (get_noqas d !! code = Some []).

Definition filter_suppressed (cfg : Configuration) (d : BaseDocstring)
           (code : string) (candidate_names : gset string) : gset string :=
  if is_kind_suppressed cfg d code then ∅
  else match get_noqas d !! code with
       | Some (n :: names) => candidate_names ∖ list_to_set (n :: names)
       | _ => candidate_names
       end.

(** The suppression index has an entry for [code] that lists [name]. *)
Definition name_suppressed (d : BaseDocstring) (code name : string) : Prop :=
  exists names, get_noqas d !! code = Some names /\ name ∈ names.

(** The documented type of an argument: the mapping the type checks build
    from the Arguments section. *)
Definition documented_type (d : BaseDocstring) (name : string)
  : option (option string) :=
  dict_get name
    (dict (zip (items_or_empty (get_items d ARGUMENTS_SECTION))
               (types_or_empty (get_types d ARGUMENTS_SECTION)))).

(** What one round of the loop of [_check_parameter_types] appends. *)
Definition mismatch_of (error_code : ErrorClass -> string)
           (d : BaseDocstring) (function : FunctionDescription.t)
           (triple : string * (option string * option string))
  : list DarglintError.t :=
  let '(name, (expected, actual)) := triple in
  match expected, actual with
  | Some expected, Some actual =>
      if negb (bool_decide (expected = actual)
               || match get_noqas d !! error_code ParameterTypeMismatch with
                  | Some names => in_list name names
                  | None => false
                  end)
      then [ParameterTypeMismatchError
              (FunctionDescription.function function) name expected actual
              (or_else (get_line_numbers_for_value d "ident" name)
                       (get_line_numbers d "arguments-section"))]
      else []
  | _, _ => []
  end.

(** What [_check_variables] appends: a finding per described variable
    that the function does not have. *)
Definition excess_variables (d : BaseDocstring)
           (function : FunctionDescription.t) : list DarglintError.t :=
  (fun excess =>
     ExcessVariableError
       (FunctionDescription.function function) excess
       (or_else (get_line_numbers_for_value d "variables-section" excess)
                (get_line_numbers d "variables-section")))
    <$> elements (set_of (items_or_empty (get_items d VARIABLES_SECTION))
                  ∖ set_of (FunctionDescription.variables function)).

(** The two tests of [run_checks] that end a run before the battery. *)
Definition short_circuits (cfg : Configuration) (d : BaseDocstring) : bool :=
  (bool_decide (strictness cfg <> FULL_DESCRIPTION)
   && satisfies_strictness d (strictness cfg))
  || ignore_all d.

(** The parser [run_checks] calls under a style. *)
Definition parser (from_google from_sphinx : string -> result BaseDocstring)
           (s : DocstringStyle) : string -> result BaseDocstring :=
  match s with GOOGLE => from_google | SPHINX => from_sphinx end.



(** A finding whose code is in the ignore list, if there is one, is an
    ExcessVariable or a style finding. *)
Definition ignored_only_if_ungated (error_code : ErrorClass -> string)
           (cfg : Configuration) (e : DarglintError.t) : Prop :=
  error_code (DarglintError.cls e) ∈ ignore cfg ->
  DarglintError.cls e = ExcessVariable
  \/ exists c, DarglintError.cls e = StyleViolation c.

(** The documentation declares exactly one return type. *)
Definition single_return_type (d : BaseDocstring) (t : string) : Prop :=
  get_types d RETURNS_SECTION = Some (TypeStr t) /\ t <> "".

(** A list is in ascending order of [key]. *)
Definition ascending {A} (key : A -> Z) (l : list A) : Prop :=
  forall i j x y, (i < j)%nat -> l !! i = Some x -> l !! j = Some y ->
             (key x <= key y)%Z.

(** The source position of the unit a finding belongs to. *)
Definition position (e : DarglintError.t) : Z :=
  FunctionDef.lineno (DarglintError.function e).

(** The nine checks of a run, as one statement about what they append. *)
Definition checks_emit (error_code : ErrorClass -> string)
           (P : DarglintError.t -> Prop) (cfg : Configuration)
           (function : FunctionDescription.t) : Prop :=
  forall d,
    emits P d cfg (_check_variables function)
    /\ emits P d cfg (_check_parameters error_code function)
    /\ emits P d cfg (_check_parameter_types error_code function)
    /\ emits P d cfg (_check_parameter_types_missing error_code function)
    /\ emits P d cfg (_check_return error_code function)
    /\ emits P d cfg (_check_return_type error_code function)
    /\ emits P d cfg (_check_yield error_code function)
    /\ emits P d cfg (_check_raises error_code function)
    /\ emits P d cfg (_check_style function).

(** What one round of the loop of [_check_parameter_types_missing]
    appends. *)
Definition missing_type_of (error_code : ErrorClass -> string)
           (d : BaseDocstring) (function : FunctionDescription.t)
           (item : string * option string) : list DarglintError.t :=
  let '(name, argument_type) := item in
  match argument_type with
  | None =>
      if negb match get_noqas d !! error_code ParameterTypeMissing with
              | Some names => in_list name names
              | None => false
              end
      then [ParameterTypeMissingError
              (FunctionDescription.function function) name
              (or_else (get_line_numbers_for_value d "ident" name)
                       (get_line_numbers d "arguments-section"))]
      else []
  | Some _ => []
  end.

(** The docstring and the function agree on everything the checks of a
    run under style [s] compare. *)
Definition consistent (s : DocstringStyle) (d : BaseDocstring)
           (function : FunctionDescription.t) : Prop :=
  set_of (FunctionDescription.argument_names function)
  = set_of (items_or_empty (get_items d ARGUMENTS_SECTION))
  /\ (forall (i : nat) name declared documented,
        FunctionDescription.argument_names function !! i = Some name ->
        FunctionDescription.argument_types function !! i
        = Some (Some declared) ->
        documented_type d name = Some (Some documented) ->
        declared = documented)
  /\ (forall name, documented_type d name <> Some None)
  /\ FunctionDescription.has_return function = get_section d RETURNS_SECTION
  /\ (forall declared documented,
        FunctionDescription.return_type function = Some declared ->
        single_return_type d documented ->
        declared = documented)
  /\ FunctionDescription.has_yield function = get_section d YIELDS_SECTION
  /\ FunctionDescription.raises function
     = set_of (items_or_empty (get_items d RAISES_SECTION))
  /\ get_style_errors d = []
  /\ (s = SPHINX ->
      set_of (items_or_empty (get_items d VARIABLES_SECTION))
      ⊆ set_of (FunctionDescription.variables function)).

(** ** Sample units *)

(** An assignment of codes to the error classes; a style error class
    carries its own. *)
Definition sample_code (error : ErrorClass) : string :=
  match error with
  | MissingParameter => "DAR101"
  | ExcessParameter => "DAR102"
  | ParameterTypeMismatch => "DAR103"
  | ParameterTypeMissing => "DAR104"
  | MissingReturn => "DAR201"
  | ExcessReturn => "DAR202"
  | ReturnTypeMismatch => "DAR203"
  | MissingYield => "DAR301"
  | ExcessYield => "DAR302"
  | MissingRaise => "DAR401"
  | ExcessRaise => "DAR402"
  | ExcessVariable => "DAR501"
  | StyleViolation c => c
  end.

(** A docstring with a description and nothing else. *)
Definition plain_docstring : BaseDocstring :=
  {| get_section := fun _ => false;
     get_items := fun _ => None;
     get_types := fun _ => None;
     get_noqas := ∅;
     get_line_numbers := fun _ => None;
     get_line_numbers_for_value := fun _ _ => None;
     get_style_errors := [];
     satisfies_strictness := fun _ => false;
     ignore_all := false |}.

Definition with_items (section : Sections) (items : list string)
           (types : list (option string)) (d : BaseDocstring) : BaseDocstring :=
  {| get_section := get_section d;
     get_items := fun s => if decide (s = section) then Some items
                        else get_items d s;
     get_types := fun s => if decide (s = section) then Some (TypeList types)
                        else get_types d s;
     get_noqas := get_noqas d;
     get_line_numbers := get_line_numbers d;
     get_line_numbers_for_value := get_line_numbers_for_value d;
     get_style_errors := get_style_errors d;
     satisfies_strictness := satisfies_strictness d;
     ignore_all := ignore_all d |}.

Definition with_returns (type : string) (d : BaseDocstring) : BaseDocstring :=
  {| get_section := fun s => if decide (s = RETURNS_SECTION) then true
                          else get_section d s;
     get_items := get_items d;
     get_types := fun s => if decide (s = RETURNS_SECTION)
                        then Some (TypeStr type) else get_types d s;
     get_noqas := get_noqas d;
     get_line_numbers := get_line_numbers d;
     get_line_numbers_for_value := get_line_numbers_for_value d;
     get_style_errors := get_style_errors d;
     satisfies_strictness := satisfies_strictness d;
     ignore_all := ignore_all d |}.

Definition with_noqas (noqas : gmap string (list string)) (d : BaseDocstring)
  : BaseDocstring :=
  {| get_section := get_section d;
     get_items := get_items d;
     get_types := get_types d;
     get_noqas := noqas;
     get_line_numbers := get_line_numbers d;
     get_line_numbers_for_value := get_line_numbers_for_value d;
     get_style_errors := get_style_errors d;
     satisfies_strictness := satisfies_strictness d;
     ignore_all := ignore_all d |}.

Definition with_ignore_all (d : BaseDocstring) : BaseDocstring :=
  {| get_section := get_section d;
     get_items := get_items d;
     get_types := get_types d;
     get_noqas := get_noqas d;
     get_line_numbers := get_line_numbers d;
     get_line_numbers_for_value := get_line_numbers_for_value d;
     get_style_errors := get_style_errors d;
     satisfies_strictness := satisfies_strictness d;
     ignore_all := true |}.

Definition satisfying_any_strictness (d : BaseDocstring) : BaseDocstring :=
  {| get_section := get_section d;
     get_items := get_items d;
     get_types := get_types d;
     get_noqas := get_noqas d;
     get_line_numbers := get_line_numbers d;
     get_line_numbers_for_value := get_line_numbers_for_value d;
     get_style_errors := get_style_errors d;
     satisfies_strictness := fun _ => true;
     ignore_all := ignore_all d |}.

(** A parser given by the docstrings it builds; any other text makes it
    raise. *)
Fixpoint sample_parser (table : list (string * BaseDocstring)) (text : string)
  : result BaseDocstring :=
  match table with
  | [] => Raise (ParserException text)
  | (text', d) :: table' =>
      if decide (text' = text) then Return d else sample_parser table' text
  end.

(** A function at [lineno] with no arguments that neither returns nor
    yields. *)
Definition sample_function (name : string) (lineno : Z) (text : string)
  : FunctionDescription.t :=
  FunctionDescription.mk (FunctionDef.mk name lineno)
                         [] [] None false false ∅ [] (Some text).

Definition with_arguments (names : list string) (types : list (option string))
           (f : FunctionDescription.t) : FunctionDescription.t :=
  FunctionDescription.mk
    (FunctionDescription.function f) names types
    (FunctionDescription.return_type f) (FunctionDescription.has_return f)
    (FunctionDescription.has_yield f) (FunctionDescription.raises f)
    (FunctionDescription.variables f) (FunctionDescription.docstring f).

Definition returning (type : option string) (f : FunctionDescription.t)
  : FunctionDescription.t :=
  FunctionDescription.mk
    (FunctionDescription.function f) (FunctionDescription.argument_names f)
    (FunctionDescription.argument_types f) type true
    (FunctionDescription.has_yield f) (FunctionDescription.raises f)
    (FunctionDescription.variables f) (FunctionDescription.docstring f).

Definition yielding (f : FunctionDescription.t) : FunctionDescription.t :=
  FunctionDescription.mk
    (FunctionDescription.function f) (FunctionDescription.argument_names f)
    (FunctionDescription.argument_types f) (FunctionDescription.return_type f)
    (FunctionDescription.has_return f) true (FunctionDescription.raises f)
    (FunctionDescription.variables f) (FunctionDescription.docstring f).

Definition sample_config (ignore : list string) (style : DocstringStyle)
           (strictness : Strictness) : Configuration :=
  {| ignore := ignore; message_template := None;
     style := style; strictness := strictness |}.

(** The docstrings the sample parser knows. *)
Definition described_variable : BaseDocstring :=
  with_items VARIABLES_SECTION ["x"] [None] plain_docstring.

Definition sample_table : list (string * BaseDocstring) :=
  [ ("plain", plain_docstring);
    ("var x", described_variable);
    ("var x, noqa: *", with_ignore_all described_variable);
    ("var x, short", satisfying_any_strictness described_variable);
    ("x: str", with_items ARGUMENTS_SECTION ["x"] [Some "str"] plain_docstring);
    ("returns str", with_returns "str" plain_docstring);
    ("noqa: DAR101 a",
     with_noqas {[ "DAR101" := ["a"] ]} plain_docstring) ].

(** The checker's methods with the sample codes and parser. *)
Definition sample_run_checks : FunctionDescription.t -> M unit :=
  run_checks sample_code (sample_parser sample_table)
             (sample_parser sample_table).

Definition sample_schedule : FunctionDescription.t -> M unit :=
  schedule sample_code (sample_parser sample_table)
           (sample_parser sample_table).

Definition raising (names : gset string) (f : FunctionDescription.t)
  : FunctionDescription.t :=
  FunctionDescription.mk
    (FunctionDescription.function f) (FunctionDescription.argument_names f)
    (FunctionDescription.argument_types f) (FunctionDescription.return_type f)
    (FunctionDescription.has_return f) (FunctionDescription.has_yield f)
    names
    (FunctionDescription.variables f) (FunctionDescription.docstring f).


Definition undocumented (f : FunctionDescription.t) : FunctionDescription.t :=
  FunctionDescription.mk
    (FunctionDescription.function f) (FunctionDescription.argument_names f)
    (FunctionDescription.argument_types f) (FunctionDescription.return_type f)
    (FunctionDescription.has_return f) (FunctionDescription.has_yield f)
    (FunctionDescription.raises f)
    (FunctionDescription.variables f) None.

(** A unit with one argument, a return value and a raised exception, and
    a docstring that documents all of it. *)
Definition documented_docstring : BaseDocstring :=
  with_items RAISES_SECTION ["ValueError"] [None]
    (with_items ARGUMENTS_SECTION ["x"] [Some "int"]
       (with_returns "str" plain_docstring)).

Definition documented_function : FunctionDescription.t :=
  raising {[ "ValueError" ]}
    (with_arguments ["x"] [Some "int"]
       (returning (Some "str") (sample_function "f" 7 "documented"))).

(** A unit at odds with its docstring in several checks at once. *)
Definition stale_docstring : BaseDocstring :=
  with_items VARIABLES_SECTION ["v"] [None]
    (with_items RAISES_SECTION ["KeyError"] [None]
       (with_items ARGUMENTS_SECTION ["y"] [None] plain_docstring)).

Definition stale_function : FunctionDescription.t :=
  raising {[ "ValueError" ]}
    (with_arguments ["x"] [Some "int"]
       (returning None (sample_function "g" 12 "stale"))).

(** A docstring in which the parser found two style errors. *)
Definition untidy_docstring : BaseDocstring :=
  {| get_section := get_section plain_docstring;
     get_items := get_items plain_docstring;
     get_types := get_types plain_docstring;
     get_noqas := get_noqas plain_docstring;
     get_line_numbers := get_line_numbers plain_docstring;
     get_line_numbers_for_value := get_line_numbers_for_value plain_docstring;
     get_style_errors := [("S001", Some (2, 3)%Z); ("S002", None)];
     satisfies_strictness := satisfies_strictness plain_docstring;
     ignore_all := ignore_all plain_docstring |}.

(** A parser that builds the same docstring from any text. *)
Definition always (d : BaseDocstring) (text : string) : result BaseDocstring :=
  Return d.

(** ** Properties *)

Section Properties.

Set Default Proof Using "Type*".

Variable error_code : ErrorClass -> string.
Variable from_google : string -> result BaseDocstring.
Variable from_sphinx : string -> result BaseDocstring.

Implicit Types (d : BaseDocstring) (cfg : Configuration)
         (self : IntegrityChecker) (l : list DarglintError.t)
         (function : FunctionDescription.t).

(** *** The monad on objects that hold a docstring *)

Lemma add_errors_nil self : add_errors [] self = self.
Proof. destruct self. unfold add_errors, set_errors. simpl. by rewrite app_nil_r. Qed.

Lemma add_errors_app l1 l2 self :
  add_errors l2 (add_errors l1 self) = add_errors (l1 ++ l2) self.
Proof. unfold add_errors, set_errors. simpl. by rewrite app_assoc. Qed.

Lemma appended_add_errors {A} (m : M A) r l self :
  m self = (r, add_errors l self) -> appended m self = l.
Proof.
  intros E. unfold appended. rewrite E. simpl. by rewrite drop_app_length.
Qed.

Lemma yields_ret {A} d cfg (a : A) : yields d cfg (mret a) a.
Proof. by intros self _ _. Qed.

Lemma yields_self_docstring d cfg : yields d cfg self_docstring d.
Proof.
  intros self Hd _. unfold self_docstring, get, mbind, M_bind. by rewrite Hd.
Qed.

Lemma yields_config d cfg : yields d cfg (get config) cfg.
Proof. intros self _ Hc. unfold get. by rewrite Hc. Qed.

Lemma yields_bind {A B} d cfg (m : M A) (k : A -> M B) a b :
  yields d cfg m a -> yields d cfg (k a) b -> yields d cfg (m ≫= k) b.
Proof.
  intros Hm Hk self Hd Hc. unfold mbind, M_bind.
  rewrite (Hm self Hd Hc). by apply Hk.
Qed.

Lemma appends_bind {A} d cfg (m : M A) (k : A -> M unit) a l :
  yields d cfg m a -> appends d cfg (k a) l -> appends d cfg (m ≫= k) l.
Proof.
  intros Hm Hk self Hd Hc. unfold mbind, M_bind.
  rewrite (Hm self Hd Hc). by apply Hk.
Qed.

Lemma appends_then d cfg (m : M unit) (k : unit -> M unit) l1 l2 :
  appends d cfg m l1 -> appends d cfg (k tt) l2 ->
  appends d cfg (m ≫= k) (l1 ++ l2).
Proof.
  intros Hm Hk self Hd Hc. unfold mbind, M_bind.
  rewrite (Hm self Hd Hc), (Hk (add_errors l1 self)); [|done..].
  by rewrite add_errors_app.
Qed.

Lemma appends_pass d cfg : appends d cfg pass [].
Proof. intros self _ _. unfold pass. by rewrite add_errors_nil. Qed.

Lemma appends_append d cfg e : appends d cfg (append e) [e].
Proof. by intros self _ _. Qed.

Lemma appends_for {A} d cfg (xs : list A) (body : A -> M unit)
      (g : A -> list DarglintError.t) :
  (forall x, x ∈ xs -> appends d cfg (body x) (g x)) ->
  appends d cfg (for_ xs body) (xs ≫= g).
Proof.
  induction xs as [|x xs IH]; intros Hbody; simpl.
  - apply appends_pass.
  - apply appends_then.
    + apply Hbody. by left.
    + apply IH. intros y Hy. apply Hbody. by right.
Qed.

Lemma appends_appended d cfg m l self :
  appends d cfg m l -> docstring self = Some d -> config self = cfg ->
  appended m self = l.
Proof. intros Hm Hd Hc. eapply appended_add_errors. by apply Hm. Qed.

Lemma appends_emits P d cfg m l :
  appends d cfg m l -> Forall P l -> emits P d cfg m.
Proof. intros. by exists l. Qed.

Lemma emits_then P d cfg (m : M unit) (k : unit -> M unit) :
  emits P d cfg m -> emits P d cfg (k tt) -> emits P d cfg (m ≫= k).
Proof.
  intros (l1 & H1 & F1) (l2 & H2 & F2). exists (l1 ++ l2). split.
  - by apply appends_then.
  - by apply Forall_app.
Qed.

Lemma emits_bind {A} P d cfg (m : M A) (k : A -> M unit) a :
  yields d cfg m a -> emits P d cfg (k a) -> emits P d cfg (m ≫= k).
Proof.
  intros Hm (l & Hk & F). exists l. split; [|done].
  by eapply appends_bind.
Qed.

Lemma emits_pass P d cfg : emits P d cfg pass.
Proof. exists []. split; [apply appends_pass | constructor]. Qed.

Lemma emits_for {A} P d cfg (xs : list A) (body : A -> M unit) :
  (forall x, x ∈ xs -> emits P d cfg (body x)) ->
  emits P d cfg (for_ xs body).
Proof.
  induction xs as [|x xs IH]; intros Hbody; simpl.
  - apply emits_pass.
  - apply emits_then.
    + apply Hbody. by left.
    + apply IH. intros y Hy. apply Hbody. by right.
Qed.

Lemma emits_weaken (P Q : DarglintError.t -> Prop) d cfg m :
  (forall e, P e -> Q e) -> emits P d cfg m -> emits Q d cfg m.
Proof.
  intros HPQ (l & Hm & F). exists l. split; [done|].
  eapply Forall_impl; eauto.
Qed.

(** *** The suppression resolver *)

Lemma _ignore_error_yields d cfg error :
  yields d cfg (_ignore_error error_code error)
         (is_kind_suppressed cfg d (error_code error)).
Proof.
  intros self Hd Hc. unfold _ignore_error, is_kind_suppressed.
  unfold mbind, M_bind, get. rewrite Hc.
  case_bool_decide as Hin; simpl; [done|].
  rewrite (yields_self_docstring d cfg self Hd Hc).
  destruct (get_noqas d !! error_code error) as [[|n names]|] eqn:E.
  - by rewrite bool_decide_eq_true_2.
  - by rewrite bool_decide_eq_false_2.
  - by rewrite bool_decide_eq_false_2.
Qed.

Lemma _remove_ignored_yields d cfg missing error :
  yields d cfg (_remove_ignored error_code missing error)
         (filter_suppressed cfg d (error_code error) missing).
Proof.
  unfold _remove_ignored. eapply yields_bind; [apply _ignore_error_yields|].
  unfold filter_suppressed.
  destruct (is_kind_suppressed cfg d (error_code error)) eqn:E;
    [apply yields_ret|].
  eapply yields_bind; [apply yields_self_docstring|].
  destruct (get_noqas d !! error_code error) as [[|n names]|] eqn:E'.
  - exfalso. unfold is_kind_suppressed in E. rewrite E' in E.
    rewrite (bool_decide_eq_true_2 (Some [] = Some [])) in E by done.
    by rewrite orb_true_r in E.
  - apply yields_ret.
  - apply yields_ret.
Qed.

(** C3: the suppression resolver. [_ignore_error] answers true exactly
    when the code is in the configuration's ignore list or the
    docstring's suppression index maps it to an empty target list;
    [_remove_ignored] returns the empty set in that case, otherwise the
    candidates minus the index's non-empty target list when there is
    one, otherwise the candidates unchanged.  Neither changes the
    checker. *)
Theorem suppression_resolver_contract self d error :
  docstring self = Some d ->
  let cfg := config self in
  let code := error_code error in
  _ignore_error error_code error self
    = (Return (is_kind_suppressed cfg d code), self)
  /\ (is_kind_suppressed cfg d code = true <->
      code ∈ ignore cfg \/ get_noqas d !! code = Some [])
  /\ forall candidate_names : gset string,
      _remove_ignored error_code candidate_names error self
        = (Return (filter_suppressed cfg d code candidate_names), self)
      /\ (is_kind_suppressed cfg d code = true ->
          filter_suppressed cfg d code candidate_names = ∅)
      /\ (is_kind_suppressed cfg d code = false ->
          forall target, get_noqas d !! code = Some target -> target <> [] ->
            filter_suppressed cfg d code candidate_names
              = candidate_names ∖ list_to_set target)
      /\ (is_kind_suppressed cfg d code = false ->
          (forall target, get_noqas d !! code = Some target -> target = []) ->
          filter_suppressed cfg d code candidate_names = candidate_names).
Proof.
  intros Hd cfg code. split; [|split].
  - by apply _ignore_error_yields.
  - unfold is_kind_suppressed. rewrite orb_true_iff.
    by rewrite !bool_decide_eq_true.
  - intros names. split; [by apply _remove_ignored_yields|].
    unfold filter_suppressed. split; [|split].
    + by intros ->.
    + intros -> target Ht Hne. rewrite Ht. by destruct target.
    + intros -> Hnone.
      destruct (get_noqas d !! code) as [[|n t]|] eqn:E; try done.
      by specialize (Hnone _ eq_refl).
Qed.

(** *** Parameter presence *)

Lemma appends_for_each {A} d cfg (xs : list A) (body : A -> M unit)
      (f : A -> DarglintError.t) :
  (forall x, x ∈ xs -> appends d cfg (body x) [f x]) ->
  appends d cfg (for_ xs body) (f <$> xs).
Proof.
  intros Hbody.
  replace (f <$> xs) with (xs ≫= fun x => [f x]).
  - by apply appends_for.
  - clear Hbody. induction xs as [|x xs IH]; [done|].
    csimpl. by rewrite IH.
Qed.

Lemma _check_parameters_appends d cfg function :
  let fn := FunctionDescription.function function in
  let A := set_of (FunctionDescription.argument_names function) in
  let D := set_of (items_or_empty (get_items d ARGUMENTS_SECTION)) in
  let default_line_numbers := get_line_numbers d "arguments-section" in
  appends d cfg (_check_parameters error_code function)
    (((fun n => MissingParameterError fn n default_line_numbers)
        <$> elements (filter_suppressed cfg d (error_code MissingParameter)
                                        (A ∖ D)))
     ++ ((fun n => ExcessParameterError fn n
                  (or_else (get_line_numbers_for_value d "arguments-section" n)
                           default_line_numbers))
        <$> elements (filter_suppressed cfg d (error_code ExcessParameter)
                                        (D ∖ A)))).
Proof.
  intros fn A D dl. unfold _check_parameters.
  eapply appends_bind; [apply yields_self_docstring|].
  eapply appends_bind; [apply _remove_ignored_yields|].
  eapply appends_bind; [apply yields_self_docstring|].
  apply appends_then.
  - apply appends_for_each. intros n _. apply appends_append.
  - eapply appends_bind; [apply _remove_ignored_yields|].
    apply appends_for_each. intros n _.
    eapply appends_bind; [apply yields_self_docstring|].
    apply appends_append.
Qed.

Lemma filter_suppressed_subseteq cfg d code (names : gset string) :
  filter_suppressed cfg d code names ⊆ names.
Proof.
  unfold filter_suppressed.
  destruct (is_kind_suppressed cfg d code); [set_solver|].
  destruct (get_noqas d !! code) as [[|n t]|]; set_solver.
Qed.

(** C4: the parameter presence check appends exactly one
    MissingParameter finding per actual name that is not documented and
    survives suppression, exactly one ExcessParameter finding per
    documented name that is not actual and survives suppression, and
    nothing else; nothing when the two name sets are equal; and with
    actual parameters a and b, none documented and the missing-parameter
    code suppressed for a only, the one finding for b. *)
Theorem parameter_presence self d function :
  docstring self = Some d ->
  let cfg := config self in
  let fn := FunctionDescription.function function in
  let A := set_of (FunctionDescription.argument_names function) in
  let D := set_of (items_or_empty (get_items d ARGUMENTS_SECTION)) in
  let default_line_numbers := get_line_numbers d "arguments-section" in
  let missing :=
    filter_suppressed cfg d (error_code MissingParameter) (A ∖ D) in
  let excess :=
    filter_suppressed cfg d (error_code ExcessParameter) (D ∖ A) in
  let out := appended (_check_parameters error_code function) self in
  NoDup out
  /\ (forall e, e ∈ out <->
       (exists n, n ∈ missing
                  /\ e = MissingParameterError fn n default_line_numbers)
       \/ (exists n, n ∈ excess
                     /\ e = ExcessParameterError fn n
                           (or_else (get_line_numbers_for_value
                                       d "arguments-section" n)
                                    default_line_numbers)))
  /\ (A = D -> out = [])
  /\ (FunctionDescription.argument_names function = ["a"; "b"] ->
      items_or_empty (get_items d ARGUMENTS_SECTION) = [] ->
      error_code MissingParameter ∉ ignore cfg ->
      get_noqas d !! error_code MissingParameter = Some ["a"] ->
      out = [MissingParameterError fn "b" default_line_numbers]).
Proof.
  clear from_google from_sphinx. intros Hd. cbv zeta.
  rewrite (appends_appended _ _ _ _ _
             (_check_parameters_appends d (config self) function)
             Hd eq_refl).
  pose proof (filter_suppressed_subseteq (config self) d
                (error_code MissingParameter)
                (set_of (FunctionDescription.argument_names function)
                 ∖ set_of (items_or_empty (get_items d ARGUMENTS_SECTION))))
    as Hm.
  pose proof (filter_suppressed_subseteq (config self) d
                (error_code ExcessParameter)
                (set_of (items_or_empty (get_items d ARGUMENTS_SECTION))
                 ∖ set_of (FunctionDescription.argument_names function)))
    as He.
  remember (set_of (FunctionDescription.argument_names function))
    as A eqn:HA.
  remember (set_of (items_or_empty (get_items d ARGUMENTS_SECTION)))
    as D eqn:HD.
  remember (filter_suppressed (config self) d
              (error_code MissingParameter) (A ∖ D)) as missing eqn:Hmiss.
  remember (filter_suppressed (config self) d
              (error_code ExcessParameter) (D ∖ A)) as excess eqn:Hexc.
  split; [|split; [|split]].
  - apply NoDup_app. split; [|split].
    + apply NoDup_fmap_2; [|apply NoDup_elements].
      intros x y Hxy. by injection Hxy.
    + intros e (x & -> & _)%list_elem_of_fmap (y & Hy & _)%list_elem_of_fmap.
      discriminate.
    + apply NoDup_fmap_2; [|apply NoDup_elements].
      intros x y Hxy. by injection Hxy.
  - intros e. rewrite elem_of_app, !list_elem_of_fmap.
    split.
    + intros [(n & -> & Hn)|(n & -> & Hn)]; [left|right];
        exists n; by rewrite <- elem_of_elements.
    + intros [(n & Hn & ->)|(n & Hn & ->)]; [left|right];
        exists n; by rewrite elem_of_elements.
  - intros HAD.
    assert (missing = ∅) as -> by (clear Hmiss Hexc HA HD; set_solver).
    assert (excess = ∅) as -> by (clear Hexc HA HD; set_solver).
    by rewrite elements_empty.
  - intros Hnames Hitems Hign Hnoqa.
    rewrite Hitems in HD. rewrite Hnames in HA.
    assert (excess = ∅) as ->.
    { subst D. clear Hexc Hmiss HA. set_solver. }
    assert (missing = {["b"]}) as ->.
    { subst missing. unfold filter_suppressed, is_kind_suppressed.
      rewrite Hnoqa. rewrite bool_decide_eq_false_2 by done.
      rewrite bool_decide_eq_false_2 by done. simpl.
      subst A D. unfold set_of. simpl.
      apply set_eq. intros x. set_solver. }
    by rewrite elements_empty, elements_singleton.
Qed.

(** *** Parameter types *)

Lemma name_has_noqa_spec d code name :
  match get_noqas d !! code with
  | Some names => in_list name names
  | None => false
  end = true <-> name_suppressed d code name.
Proof.
  unfold name_suppressed, in_list.
  destruct (get_noqas d !! code) as [names|].
  - rewrite bool_decide_eq_true. split.
    + intros H. by exists names.
    + by intros (names' & [= <-] & H).
  - split; [done|]. by intros (names' & [=] & _).
Qed.

Lemma _check_parameter_types_appends d cfg function :
  appends d cfg (_check_parameter_types error_code function)
    (if is_kind_suppressed cfg d (error_code ParameterTypeMismatch) then []
     else
       zip (FunctionDescription.argument_names function)
           (zip (FunctionDescription.argument_types function)
                ((fun name => match documented_type d name with
                           | None => None
                           | Some t => t
                           end)
                   <$> FunctionDescription.argument_names function))
       ≫= mismatch_of error_code d function).
Proof.
  unfold _check_parameter_types.
  eapply appends_bind; [apply _ignore_error_yields|].
  destruct (is_kind_suppressed cfg d (error_code ParameterTypeMismatch));
    [apply appends_pass|].
  eapply appends_bind; [apply yields_self_docstring|].
  eapply appends_bind; [apply yields_self_docstring|].
  apply appends_for. intros [name [[expected|] [actual|]]] _; simpl;
    try apply appends_pass.
  destruct (negb _); [|apply appends_pass].
  eapply appends_bind; [apply yields_self_docstring|].
  eapply appends_bind; [apply yields_self_docstring|].
  apply appends_append.
Qed.

Lemma elem_of_mismatch_of d function name expected actual e :
  e ∈ mismatch_of error_code d function (name, (expected, actual)) <->
  exists expected' actual',
    expected = Some expected' /\ actual = Some actual'
    /\ expected' <> actual'
    /\ ~ name_suppressed d (error_code ParameterTypeMismatch) name
    /\ e = ParameterTypeMismatchError
             (FunctionDescription.function function) name expected' actual'
             (or_else (get_line_numbers_for_value d "ident" name)
                      (get_line_numbers d "arguments-section")).
Proof.
  unfold mismatch_of.
  pose proof (name_has_noqa_spec d (error_code ParameterTypeMismatch) name)
    as Hspec.
  destruct expected as [x|], actual as [a|].
  2-4: split; [by intros ?%elem_of_nil | by intros (? & ? & ? & ? & _)].
  destruct (match get_noqas d !! _ with Some _ => _ | None => _ end);
    case_bool_decide; simpl.
  1-3: split; [by intros ?%elem_of_nil|];
       intros (? & ? & [= <-] & [= <-] & ? & Hn & _);
       try done; by destruct Hn; apply Hspec.
  rewrite list_elem_of_singleton. split.
  - intros ->. exists x, a. repeat split; try done.
    intros Hn. by apply Hspec in Hn.
  - by intros (? & ? & [= <-] & [= <-] & _ & _ & ->).
Qed.

(** C5, amended: unless the mismatch code is suppressed for the whole
    kind, in which case the check appends nothing, the parameter type
    check appends a ParameterTypeMismatch finding for exactly those
    parameters whose declared type and documented type are both
    present and differ and whose name has no suppression entry for the
    code; the finding's expected field is the type declared in code and
    its actual field the documented type.  A parameter x declared int
    and documented str gives the one finding with expected int and
    actual str. *)
Theorem parameter_type_mismatch self d function :
  docstring self = Some d ->
  let cfg := config self in
  let fn := FunctionDescription.function function in
  let code := error_code ParameterTypeMismatch in
  let line_numbers name :=
    or_else (get_line_numbers_for_value d "ident" name)
            (get_line_numbers d "arguments-section") in
  let out := appended (_check_parameter_types error_code function) self in
  (is_kind_suppressed cfg d code = true -> out = [])
  /\ (is_kind_suppressed cfg d code = false ->
      forall e, e ∈ out <->
        exists (i : nat) name expected actual,
          FunctionDescription.argument_names function !! i = Some name
          /\ FunctionDescription.argument_types function !! i
             = Some (Some expected)
          /\ documented_type d name = Some (Some actual)
          /\ expected <> actual
          /\ ~ name_suppressed d code name
          /\ e = ParameterTypeMismatchError fn name expected actual
                   (line_numbers name))
  /\ (is_kind_suppressed cfg d code = false ->
      FunctionDescription.argument_names function = ["x"] ->
      FunctionDescription.argument_types function = [Some "int"] ->
      documented_type d "x" = Some (Some "str") ->
      ~ name_suppressed d code "x" ->
      out = [ParameterTypeMismatchError fn "x" "int" "str"
               (line_numbers "x")]).
Proof.
  intros Hd. cbv zeta.
  rewrite (appends_appended _ _ _ _ _
             (_check_parameter_types_appends d (config self) function)
             Hd eq_refl).
  split; [|split].
  - by intros ->.
  - intros -> e. rewrite list_elem_of_bind. split.
    + intros ([name [expected actual]] & He & Hin).
      apply list_elem_of_lookup in Hin as [i Hi].
      apply lookup_zip_with_Some in Hi
        as (name' & [expected' actual'] & [= <- <- <-] & Hname & Hi).
      apply lookup_zip_with_Some in Hi
        as (? & ? & [= <- <-] & Htype & Hdoc).
      rewrite list_lookup_fmap, Hname in Hdoc. simpl in Hdoc.
      apply elem_of_mismatch_of in He
        as (x & a & -> & -> & Hne & Hnoqa & ->).
      exists i, name, x, a. repeat split; try done.
      injection Hdoc as Hdoc.
      by destruct (documented_type d name) as [t|]; simplify_eq.
    + intros (i & name & x & a & Hname & Htype & Hdoc & Hne & Hnoqa & ->).
      exists (name, (Some x, Some a)). split.
      * apply elem_of_mismatch_of. by exists x, a.
      * apply list_elem_of_lookup. exists i.
        apply lookup_zip_with_Some.
        exists name, (Some x, Some a). repeat split; try done.
        apply lookup_zip_with_Some.
        exists (Some x), (Some a). repeat split; try done.
        by rewrite list_lookup_fmap, Hname; simpl; rewrite Hdoc.
  - intros -> -> -> Hdoc Hnoqa. simpl. rewrite Hdoc.
    unfold mismatch_of.
    pose proof (name_has_noqa_spec d (error_code ParameterTypeMismatch) "x")
      as Hspec.
    destruct (match get_noqas d !! _ with Some _ => _ | None => _ end).
    + destruct Hnoqa. by apply Hspec.
    + done.
Qed.

(** *** Return and yield *)

Lemma _check_return_appends d cfg function :
  let fn := FunctionDescription.function function in
  appends d cfg (_check_return error_code function)
    (match FunctionDescription.has_return function,
           get_section d RETURNS_SECTION with
     | true, false =>
         if is_kind_suppressed cfg d (error_code MissingReturn) then []
         else [MissingReturnError fn]
     | false, true =>
         if is_kind_suppressed cfg d (error_code ExcessReturn) then []
         else [ExcessReturnError fn (get_line_numbers d "returns-section")]
     | _, _ => []
     end).
Proof.
  intros fn. unfold _check_return.
  eapply appends_bind; [apply yields_self_docstring|].
  eapply appends_bind; [apply _ignore_error_yields|].
  eapply appends_bind; [apply _ignore_error_yields|].
  destruct (FunctionDescription.has_return function),
           (get_section d RETURNS_SECTION),
           (is_kind_suppressed cfg d (error_code MissingReturn)),
           (is_kind_suppressed cfg d (error_code ExcessReturn)); simpl;
    try apply appends_pass; try apply appends_append.
  all: eapply appends_bind; [apply yields_self_docstring|];
       apply appends_append.
Qed.

Lemma _check_yield_appends d cfg function :
  let fn := FunctionDescription.function function in
  appends d cfg (_check_yield error_code function)
    (match FunctionDescription.has_yield function,
           get_section d YIELDS_SECTION with
     | true, false =>
         if is_kind_suppressed cfg d (error_code MissingYield) then []
         else [MissingYieldError fn]
     | false, true =>
         if is_kind_suppressed cfg d (error_code ExcessYield) then []
         else [ExcessYieldError fn (get_line_numbers d "yields-section")]
     | _, _ => []
     end).
Proof.
  intros fn. unfold _check_yield.
  eapply appends_bind; [apply yields_self_docstring|].
  eapply appends_bind; [apply _ignore_error_yields|].
  eapply appends_bind; [apply _ignore_error_yields|].
  destruct (FunctionDescription.has_yield function),
           (get_section d YIELDS_SECTION),
           (is_kind_suppressed cfg d (error_code MissingYield)),
           (is_kind_suppressed cfg d (error_code ExcessYield)); simpl;
    try apply appends_pass; try apply appends_append.
  all: eapply appends_bind; [apply yields_self_docstring|];
       apply appends_append.
Qed.

(** C6: the return check and the yield check compare the unit's flag
    with the presence of the section: nothing when the two agree; the
    missing finding when the code flag is true and the section absent,
    unless that kind is suppressed; the excess finding, at the
    section's line numbers, when the section is present and the code
    flag false, unless that kind is suppressed.  A unit that yields
    and does not return, documented with a Returns section and no
    Yields section, gets one ExcessReturn and one MissingYield
    finding. *)
Theorem return_yield_presence self d function :
  docstring self = Some d ->
  let cfg := config self in
  let fn := FunctionDescription.function function in
  let suppressed error := is_kind_suppressed cfg d (error_code error) in
  let fun_return := FunctionDescription.has_return function in
  let doc_return := get_section d RETURNS_SECTION in
  let fun_yield := FunctionDescription.has_yield function in
  let doc_yield := get_section d YIELDS_SECTION in
  let out_return := appended (_check_return error_code function) self in
  let out_yield := appended (_check_yield error_code function) self in
  (fun_return = doc_return -> out_return = [])
  /\ (fun_return = true -> doc_return = false ->
      out_return = if suppressed MissingReturn then []
                   else [MissingReturnError fn])
  /\ (doc_return = true -> fun_return = false ->
      out_return = if suppressed ExcessReturn then []
                   else [ExcessReturnError
                           fn (get_line_numbers d "returns-section")])
  /\ (fun_yield = doc_yield -> out_yield = [])
  /\ (fun_yield = true -> doc_yield = false ->
      out_yield = if suppressed MissingYield then []
                  else [MissingYieldError fn])
  /\ (doc_yield = true -> fun_yield = false ->
      out_yield = if suppressed ExcessYield then []
                  else [ExcessYieldError
                          fn (get_line_numbers d "yields-section")])
  /\ (fun_yield = true -> fun_return = false ->
      doc_return = true -> doc_yield = false ->
      suppressed MissingYield = false -> suppressed ExcessReturn = false ->
      appended (_check_return error_code function;;
                _check_yield error_code function) self
      = [ExcessReturnError fn (get_line_numbers d "returns-section");
         MissingYieldError fn]).
Proof.
  intros Hd. cbv zeta.
  rewrite (appends_appended _ _ _ _ _
             (_check_return_appends d (config self) function) Hd eq_refl).
  rewrite (appends_appended _ _ _ _ _
             (_check_yield_appends d (config self) function) Hd eq_refl).
  rewrite (appends_appended _ _ _ _ _
             (appends_then _ _ _ (fun _ => _) _ _
                (_check_return_appends d (config self) function)
                (_check_yield_appends d (config self) function))
             Hd eq_refl).
  repeat split.
  - intros ->. by destruct (get_section d RETURNS_SECTION).
  - by intros -> ->.
  - by intros -> ->.
  - intros ->. by destruct (get_section d YIELDS_SECTION).
  - by intros -> ->.
  - by intros -> ->.
  - by intros -> -> -> -> -> ->.
Qed.

(** *** Return type *)

Lemma _check_return_type_appends d cfg function :
  appends d cfg (_check_return_type error_code function)
    (if is_kind_suppressed cfg d (error_code ReturnTypeMismatch) then []
     else
       match FunctionDescription.return_type function,
             get_types d RETURNS_SECTION with
       | Some fun_type, Some (TypeStr (String c s)) =>
           if bool_decide (fun_type <> String c s) then
             [ReturnTypeMismatchError
                (FunctionDescription.function function)
                fun_type (String c s)
                (get_line_numbers d "returns-section")]
           else []
       | _, _ => []
       end).
Proof.
  unfold _check_return_type.
  eapply appends_bind; [apply _ignore_error_yields|].
  destruct (is_kind_suppressed cfg d (error_code ReturnTypeMismatch));
    [apply appends_pass|].
  eapply appends_bind; [apply yields_self_docstring|].
  destruct (FunctionDescription.return_type function) as [fun_type|],
           (get_types d RETURNS_SECTION) as [[[|c s]|types]|];
    try apply appends_pass.
  case_bool_decide; [|apply appends_pass].
  eapply appends_bind; [apply yields_self_docstring|].
  apply appends_append.
Qed.

(** C7, amended: the return type check appends a ReturnTypeMismatch
    finding if and only if the mismatch code is not suppressed for the
    whole kind, the unit declares a return type, the documentation
    declares exactly one return type, and the two differ; the finding
    then carries the declared type as expected and the documented type
    as actual.  When the documentation's entry is a list of types
    nothing is compared and nothing appended. *)
Theorem return_type_mismatch self d function :
  docstring self = Some d ->
  let cfg := config self in
  let fn := FunctionDescription.function function in
  let code := error_code ReturnTypeMismatch in
  let out := appended (_check_return_type error_code function) self in
  (out <> [] <->
     is_kind_suppressed cfg d code = false
     /\ exists fun_type doc_type,
         FunctionDescription.return_type function = Some fun_type
         /\ single_return_type d doc_type
         /\ fun_type <> doc_type)
  /\ (forall fun_type doc_type,
        is_kind_suppressed cfg d code = false ->
        FunctionDescription.return_type function = Some fun_type ->
        single_return_type d doc_type ->
        fun_type <> doc_type ->
        out = [ReturnTypeMismatchError
                 fn fun_type doc_type
                 (get_line_numbers d "returns-section")])
  /\ (forall types,
        get_types d RETURNS_SECTION = Some (TypeList types) -> out = []).
Proof.
  intros Hd. cbv zeta.
  rewrite (appends_appended _ _ _ _ _
             (_check_return_type_appends d (config self) function)
             Hd eq_refl).
  unfold single_return_type. split; [|split].
  - destruct (is_kind_suppressed _ d _).
    { split; [done|]. by intros [[=] _]. }
    destruct (FunctionDescription.return_type function) as [fun_type|].
    2: { split; [done|]. by intros (_ & ? & ? & [=] & _). }
    destruct (get_types d RETURNS_SECTION) as [[[|c s]|types]|].
    1,3,4: split; [done|]; by intros (_ & ? & ? & _ & [[=] ?] & _).
    case_bool_decide as Hne.
    + split; [|done]. intros _. split; [done|].
      by exists fun_type, (String c s).
    + split; [done|].
      intros (_ & ? & ? & [= <-] & [[= <-] _] & Hne'). by destruct Hne.
  - intros fun_type doc_type -> -> [-> Hnonempty] Hne.
    destruct doc_type as [|c s]; [done|].
    by rewrite bool_decide_eq_true_2.
  - intros types ->. destruct (is_kind_suppressed _ d _); [done|].
    by destruct (FunctionDescription.return_type function).
Qed.

(** *** The other checks *)

Lemma _check_variables_appends d cfg function :
  appends d cfg (_check_variables function) (excess_variables d function).
Proof.
  unfold _check_variables, excess_variables.
  eapply appends_bind; [apply yields_self_docstring|].
  eapply appends_bind; [apply yields_self_docstring|].
  apply appends_for_each. intros n _.
  eapply appends_bind; [apply yields_self_docstring|].
  apply appends_append.
Qed.

Lemma _check_style_appends d cfg function :
  appends d cfg (_check_style function)
    ((fun '(StyleError_, line_numbers) =>
        StyleError StyleError_ (FunctionDescription.function function)
                   line_numbers)
       <$> get_style_errors d).
Proof.
  unfold _check_style.
  eapply appends_bind; [apply yields_self_docstring|].
  apply appends_for_each. intros [c ln] _. apply appends_append.
Qed.

Lemma _check_raises_appends d cfg function :
  let fn := FunctionDescription.function function in
  let D := set_of (items_or_empty (get_items d RAISES_SECTION)) in
  let A := FunctionDescription.raises function in
  appends d cfg (_check_raises error_code function)
    (((fun n => MissingRaiseError fn n)
        <$> elements (filter_suppressed cfg d (error_code MissingRaise)
                                        (A ∖ D)))
     ++ ((fun n => ExcessRaiseError fn n
                  (or_else (get_line_numbers_for_value d "raises-section" n)
                           (get_line_numbers d "raises-section")))
        <$> elements (filter_suppressed cfg d (error_code ExcessRaise)
                                        (D ∖ A)))).
Proof.
  intros fn D A. unfold _check_raises.
  eapply appends_bind; [apply yields_self_docstring|].
  eapply appends_bind; [apply _remove_ignored_yields|].
  apply appends_then.
  - apply appends_for_each. intros n _. apply appends_append.
  - eapply appends_bind; [apply _remove_ignored_yields|].
    eapply appends_bind; [apply yields_self_docstring|].
    apply appends_for_each. intros n _.
    eapply appends_bind; [apply yields_self_docstring|].
    apply appends_append.
Qed.

Lemma _check_parameter_types_missing_emits P d cfg function :
  (is_kind_suppressed cfg d (error_code ParameterTypeMissing) = false ->
   forall name line_numbers,
     P (ParameterTypeMissingError (FunctionDescription.function function)
                                  name line_numbers)) ->
  emits P d cfg (_check_parameter_types_missing error_code function).
Proof.
  intros HP. unfold _check_parameter_types_missing.
  eapply emits_bind; [apply _ignore_error_yields|].
  destruct (is_kind_suppressed cfg d (error_code ParameterTypeMissing));
    [apply emits_pass|].
  eapply emits_bind; [apply yields_self_docstring|].
  eapply emits_bind; [apply yields_self_docstring|].
  apply emits_for. intros [name [t|]] _; [apply emits_pass|].
  destruct (negb _); [|apply emits_pass].
  eapply emits_bind; [apply yields_self_docstring|].
  eapply emits_bind; [apply yields_self_docstring|].
  eapply appends_emits; [apply appends_append|].
  apply Forall_singleton. by apply HP.
Qed.

Lemma not_suppressed_not_ignored cfg d code :
  is_kind_suppressed cfg d code = false -> code ∉ ignore cfg.
Proof.
  unfold is_kind_suppressed. intros [H _]%orb_false_iff.
  by apply bool_decide_eq_false in H.
Qed.

Lemma elem_of_filter_suppressed cfg d code (names : gset string) n :
  n ∈ filter_suppressed cfg d code names ->
  is_kind_suppressed cfg d code = false.
Proof.
  unfold filter_suppressed.
  destruct (is_kind_suppressed cfg d code); [set_solver|done].
Qed.

Lemma checks_emit_True cfg function :
  checks_emit error_code (fun _ => True) cfg function.
Proof.
  intros d. repeat split.
  - eapply appends_emits; [apply _check_variables_appends|by apply Forall_true].
  - eapply appends_emits; [apply _check_parameters_appends|by apply Forall_true].
  - eapply appends_emits;
      [apply _check_parameter_types_appends|by apply Forall_true].
  - by apply _check_parameter_types_missing_emits.
  - eapply appends_emits; [apply _check_return_appends|by apply Forall_true].
  - eapply appends_emits;
      [apply _check_return_type_appends|by apply Forall_true].
  - eapply appends_emits; [apply _check_yield_appends|by apply Forall_true].
  - eapply appends_emits; [apply _check_raises_appends|by apply Forall_true].
  - eapply appends_emits; [apply _check_style_appends|by apply Forall_true].
Qed.

(** *** A run *)

Lemma appends_then_unsorted d cfg (m : M unit) (k : unit -> M unit) l1 l2 :
  appends d cfg m l1 ->
  (forall self, docstring self = Some d -> config self = cfg ->
             k tt self = (Return tt, set__sorted false (add_errors l2 self))) ->
  forall self, docstring self = Some d -> config self = cfg ->
            (m ≫= k) self
            = (Return tt, set__sorted false (add_errors (l1 ++ l2) self)).
Proof.
  intros Hm Hk self Hd Hc. unfold mbind, M_bind.
  rewrite (Hm self Hd Hc), (Hk (add_errors l1 self)); [|done..].
  by rewrite add_errors_app.
Qed.

Lemma battery_outcome P d cfg function :
  checks_emit error_code P cfg function ->
  exists lb, Forall P lb /\
    forall self, docstring self = Some d -> config self = cfg ->
      (_check_parameters error_code function;;
       _check_parameter_types error_code function;;
       _check_parameter_types_missing error_code function;;
       _check_return error_code function;;
       _check_return_type error_code function;;
       _check_yield error_code function;;
       _check_raises error_code function;;
       _check_style function;;
       modify (set__sorted false)) self
      = (Return tt, set__sorted false (add_errors lb self)).
Proof.
  intros H.
  destruct (H d) as (_ & (l1 & H1 & F1) & (l2 & H2 & F2) & (l3 & H3 & F3)
                     & (l4 & H4 & F4) & (l5 & H5 & F5) & (l6 & H6 & F6)
                     & (l7 & H7 & F7) & (l8 & H8 & F8)).
  exists (l1 ++ l2 ++ l3 ++ l4 ++ l5 ++ l6 ++ l7 ++ l8 ++ []).
  split; [by repeat apply Forall_app_2|].
  repeat (apply appends_then_unsorted; [done|]).
  intros self _ _. unfold modify. by rewrite add_errors_nil.
Qed.

Lemma docstring_set_docstring d self :
  docstring (set_docstring d self) = Some d.
Proof. done. Qed.

Lemma run_checks_outcome P function text cfg :
  FunctionDescription.docstring function = Some text ->
  checks_emit error_code P cfg function ->
  match parser from_google from_sphinx (style cfg) text with
  | Raise e =>
      forall self, config self = cfg ->
        run_checks error_code from_google from_sphinx function self
        = (Raise e, self)
  | Return d =>
      let lv := match style cfg with
                | SPHINX => excess_variables d function
                | GOOGLE => []
                end in
      exists lb, Forall P lb /\
        forall self, config self = cfg ->
          run_checks error_code from_google from_sphinx function self
          = (Return tt,
             if short_circuits cfg d
             then add_errors lv (set_docstring d self)
             else set__sorted false
                    (add_errors (lv ++ lb) (set_docstring d self)))
  end.
Proof.
  intros Hdoc Hchecks.
  destruct (parser _ _ _ _) as [d|e] eqn:Hparse.
  - destruct (battery_outcome P d cfg function Hchecks) as (lb & HP & Hb).
    exists lb. split; [done|]. intros self Hc.
    unfold run_checks. rewrite Hdoc.
    unfold mbind at 1. unfold M_bind at 1. unfold get at 1. rewrite Hc.
    unfold mbind at 1. unfold M_bind at 1.
    match goal with
    | |- (let (r, self') := ?m self in _) = _ =>
        assert (Hfirst :
                 m self
                 = (Return tt,
                    add_errors match style cfg with
                               | GOOGLE => []
                               | SPHINX => excess_variables d function
                               end (set_docstring d self)))
    end.
    { unfold parser in Hparse.
      destruct (style cfg); unfold mbind, M_bind, call, modify;
        rewrite Hparse.
      - by rewrite add_errors_nil.
      - by apply (_check_variables_appends d cfg function). }
    rewrite Hfirst. clear Hfirst.
    set (lv := match style cfg with
               | GOOGLE => []
               | SPHINX => excess_variables d function
               end).
    rewrite <- add_errors_app.
    set (s1 := add_errors lv (set_docstring d self)).
    assert (Hd1 : docstring s1 = Some d) by done.
    assert (Hc1 : config s1 = cfg) by done.
    clearbody s1.
    specialize (Hb s1 Hd1 Hc1).
    pose proof (yields_self_docstring d cfg s1 Hd1 Hc1) as Hsd.
    unfold short_circuits.
    unfold mbind, M_bind in *. unfold get at 1. rewrite Hc1.
    destruct (bool_decide (strictness cfg <> FULL_DESCRIPTION)); simpl andb.
    + rewrite Hsd. unfold mret at 1, M_ret at 1.
      destruct (satisfies_strictness d (strictness cfg)); simpl orb;
        [done|].
      rewrite Hsd. by destruct (ignore_all d).
    + unfold mret at 1, M_ret at 1. simpl orb.
      rewrite Hsd. by destruct (ignore_all d).
  - intros self Hc. unfold run_checks. rewrite Hdoc.
    unfold mbind at 1. unfold M_bind at 1. unfold get at 1. rewrite Hc.
    unfold mbind at 1. unfold M_bind at 1.
    unfold parser in Hparse.
    by destruct (style cfg); unfold mbind, M_bind, call; rewrite Hparse.
Qed.

Lemma run_checks_frame cfg function :
  exists l, forall self, config self = cfg ->
    let after :=
      (run_checks error_code from_google from_sphinx function self).2 in
    errors after = errors self ++ l
    /\ config after = cfg
    /\ executor after = executor self
    /\ raise_errors after = raise_errors self.
Proof.
  destruct (FunctionDescription.docstring function) as [text|] eqn:Hdoc.
  - pose proof (run_checks_outcome _ function text cfg Hdoc
                  (checks_emit_True cfg function)) as H.
    destruct (parser _ _ _ _) as [d|e].
    + destruct H as (lb & _ & H).
      exists (if short_circuits cfg d
         then match style cfg with
              | GOOGLE => []
              | SPHINX => excess_variables d function
              end
         else match style cfg with
              | GOOGLE => []
              | SPHINX => excess_variables d function
              end ++ lb).
      intros self Hc. cbv zeta. rewrite (H self Hc).
      by destruct (short_circuits cfg d).
    + exists []. intros self Hc. cbv zeta. rewrite (H self Hc). simpl.
      by rewrite app_nil_r.
  - exists []. intros self Hc. unfold run_checks. rewrite Hdoc. simpl.
    by rewrite app_nil_r.
Qed.

Lemma schedule_open function self :
  ThreadPoolExecutor._shutdown (executor self) = false ->
  let ran :=
    run_checks error_code from_google from_sphinx function self in
  let after :=
    (schedule error_code from_google from_sphinx function self).2 in
  (schedule error_code from_google from_sphinx function self).1 = Return tt
  /\ errors after = errors ran.2
  /\ config after = config ran.2
  /\ raise_errors after = raise_errors ran.2
  /\ ThreadPoolExecutor._shutdown (executor after)
     = ThreadPoolExecutor._shutdown (executor ran.2).
Proof.
  intros Hopen. cbv zeta. unfold schedule.
  destruct (FunctionDescription.docstring function) as [text|] eqn:Hdoc.
  - unfold submit, mbind, M_bind, get. rewrite Hopen.
    by destruct (run_checks _ _ _ _ _) as [[[]|e] self'].
  - unfold run_checks. by rewrite Hdoc.
Qed.

(** *** Ignored codes and the short circuit *)

Lemma checks_emit_ignored cfg function :
  checks_emit error_code (ignored_only_if_ungated error_code cfg)
              cfg function.
Proof.
  intros d. unfold ignored_only_if_ungated. repeat split.
  - eapply appends_emits; [apply _check_variables_appends|].
    apply Forall_fmap, Forall_true. intros n _. by left.
  - eapply appends_emits; [apply _check_parameters_appends|].
    apply Forall_app. split; apply Forall_fmap, Forall_forall;
      intros n Hn%elem_of_elements%elem_of_filter_suppressed
             Hin; simpl in Hin;
      by apply not_suppressed_not_ignored in Hn.
  - eapply appends_emits; [apply _check_parameter_types_appends|].
    destruct (is_kind_suppressed cfg d _) eqn:Hs; [constructor|].
    apply Forall_forall.
    intros e ([name [x a]] & He & _)%list_elem_of_bind Hin.
    apply elem_of_mismatch_of in He as (? & ? & _ & _ & _ & _ & ->).
    simpl in Hin. by apply not_suppressed_not_ignored in Hs.
  - apply _check_parameter_types_missing_emits.
    intros Hs name ln Hin. simpl in Hin.
    by apply not_suppressed_not_ignored in Hs.
  - eapply appends_emits; [apply _check_return_appends|].
    destruct (FunctionDescription.has_return function),
             (get_section d RETURNS_SECTION); try constructor.
    all: destruct (is_kind_suppressed cfg d _) eqn:Hs; constructor;
      [|constructor].
    all: intros Hin; simpl in Hin; by apply not_suppressed_not_ignored in Hs.
  - eapply appends_emits; [apply _check_return_type_appends|].
    destruct (is_kind_suppressed cfg d _) eqn:Hs; [constructor|].
    destruct (FunctionDescription.return_type function) as [fun_type|];
      [|constructor].
    destruct (get_types d RETURNS_SECTION) as [[[|c doc_type]|]|];
      try constructor.
    case_bool_decide; constructor; [|constructor].
    intros Hin; simpl in Hin; by apply not_suppressed_not_ignored in Hs.
  - eapply appends_emits; [apply _check_yield_appends|].
    destruct (FunctionDescription.has_yield function),
             (get_section d YIELDS_SECTION); try constructor.
    all: destruct (is_kind_suppressed cfg d _) eqn:Hs; constructor;
      [|constructor].
    all: intros Hin; simpl in Hin; by apply not_suppressed_not_ignored in Hs.
  - eapply appends_emits; [apply _check_raises_appends|].
    apply Forall_app. split; apply Forall_fmap, Forall_forall;
      intros n Hn%elem_of_elements%elem_of_filter_suppressed
             Hin; simpl in Hin;
      by apply not_suppressed_not_ignored in Hn.
  - eapply appends_emits; [apply _check_style_appends|].
    apply Forall_fmap, Forall_true. intros [c ln] _. right. by exists c.
Qed.

(** Every check that consults the resolver honours the ignore list: a
    finding a run appends under an ignored code comes from the
    variables check or from the style pass. *)
Lemma ignored_code_appended_only_ungated self function e :
  e ∈ appended (run_checks error_code from_google from_sphinx function)
               self ->
  ignored_only_if_ungated error_code (config self) e.
Proof.
  unfold appended.
  destruct (FunctionDescription.docstring function) as [text|] eqn:Hdoc.
  - pose proof (run_checks_outcome _ function text (config self) Hdoc
                  (checks_emit_ignored (config self) function)) as H.
    destruct (parser _ _ _ _) as [d|err].
    + destruct H as (lb & HP & H). rewrite (H self eq_refl). simpl.
      assert (Hv : Forall (ignored_only_if_ungated error_code (config self))
                          match style (config self) with
                          | GOOGLE => []
                          | SPHINX => excess_variables d function
                          end).
      { destruct (style (config self)); [constructor|].
        apply Forall_fmap, Forall_true. intros n _. by left. }
      rewrite Forall_forall in Hv, HP.
      destruct (short_circuits (config self) d); simpl;
        rewrite drop_app_length.
      * apply Hv.
      * intros [?|?]%elem_of_app; auto.
    + rewrite (H self eq_refl). simpl. rewrite drop_all.
      by intros ?%elem_of_nil.
  - unfold run_checks. rewrite Hdoc. simpl. rewrite drop_all.
    by intros ?%elem_of_nil.
Qed.

(** A run that short-circuits appends what the variables check found
    under the Sphinx style, and nothing under the Google style. *)
Lemma short_circuit_appended self function text d :
  FunctionDescription.docstring function = Some text ->
  parser from_google from_sphinx (style (config self)) text = Return d ->
  short_circuits (config self) d = true ->
  appended (run_checks error_code from_google from_sphinx function) self
  = match style (config self) with
    | GOOGLE => []
    | SPHINX => excess_variables d function
    end.
Proof.
  intros Hdoc Hparse Hshort.
  pose proof (run_checks_outcome _ function text (config self) Hdoc
                (checks_emit_True (config self) function)) as H.
  rewrite Hparse in H. destruct H as (lb & _ & H).
  unfold appended. rewrite (H self eq_refl), Hshort. simpl.
  by rewrite drop_app_length.
Qed.

(** *** Faults of the parser *)

(** Whatever [raise_errors] is, a fault of the parser ends the run; the
    pool keeps it in the task's future, and neither [schedule] nor the
    later [get_error_report] raises it. *)
Lemma parser_fault_is_kept_in_the_future
      self function text e verbosity filename template :
  FunctionDescription.docstring function = Some text ->
  parser from_google from_sphinx (style (config self)) text = Raise e ->
  ThreadPoolExecutor._shutdown (executor self) = false ->
  run_checks error_code from_google from_sphinx function self
  = (Raise e, self)
  /\ schedule error_code from_google from_sphinx function self
     = (Return tt,
        set_executor
          (ThreadPoolExecutor.mk
             false (ThreadPoolExecutor.futures (executor self) ++ [Some e]))
          self)
  /\ exists after,
      (schedule error_code from_google from_sphinx function;;
       get_error_report verbosity filename template) self
      = (Return (ErrorReport.mk
                   (sorted_by_position (errors self)) filename verbosity
                   (template_or template
                                (message_template (config self)))),
         after).
Proof.
  intros Hdoc Hparse Hopen.
  pose proof (run_checks_outcome _ function text (config self) Hdoc
                (checks_emit_True (config self) function)) as H.
  rewrite Hparse in H. specialize (H self eq_refl).
  assert (Hs : schedule error_code from_google from_sphinx function self
               = (Return tt,
                  set_executor
                    (ThreadPoolExecutor.mk
                       false
                       (ThreadPoolExecutor.futures (executor self)
                        ++ [Some e]))
                    self)).
  { unfold schedule. rewrite Hdoc.
    unfold submit, mbind, M_bind, get. by rewrite Hopen, H, Hopen. }
  split; [done|]. split; [done|].
  eexists. unfold mbind at 1, M_bind at 1. rewrite Hs. reflexivity.
Qed.

(** *** Handing the errors to the report *)

Lemma get_error_report_hands_over self verbosity filename template :
  get_error_report verbosity filename template self
  = (Return (ErrorReport.mk
               (sorted_by_position (errors self)) filename verbosity
               (template_or template (message_template (config self)))),
     set_errors
       (sorted_by_position (errors self))
       (set_executor
          (ThreadPoolExecutor.mk
             true (ThreadPoolExecutor.futures (executor self)))
          self)).
Proof. reflexivity. Qed.

Lemma sort_insert_Permutation {A} (key : A -> Z) x (l : list A) :
  sort_insert key x l ≡ₚ x :: l.
Proof.
  induction l as [|y l IH]; simpl; [done|].
  case_decide; [done|]. rewrite IH. apply Permutation_swap.
Qed.

Lemma list_sort_Permutation {A} (key : A -> Z) (l : list A) :
  list_sort key l ≡ₚ l.
Proof.
  induction l as [|x l IH]; simpl; [done|].
  by rewrite sort_insert_Permutation, IH.
Qed.

Lemma sort_insert_sorted {A} (key : A -> Z) x (l : list A) :
  StronglySorted (fun a b => (key a <= key b)%Z) l ->
  StronglySorted (fun a b => (key a <= key b)%Z) (sort_insert key x l).
Proof.
  induction 1 as [|y l Hl IH Hy]; simpl.
  - by repeat constructor.
  - case_decide as Hxy.
    + constructor; [by constructor|].
      constructor; [done|].
      eapply Forall_impl; [exact Hy|]. intros z Hz. simpl in Hz. lia.
    + constructor; [done|].
      rewrite sort_insert_Permutation. constructor; [lia|done].
Qed.

Lemma list_sort_sorted {A} (key : A -> Z) (l : list A) :
  StronglySorted (fun a b => (key a <= key b)%Z) (list_sort key l).
Proof.
  induction l as [|x l IH]; simpl; [constructor|].
  by apply sort_insert_sorted.
Qed.

Lemma list_sort_ascending {A} (key : A -> Z) (l : list A) :
  ascending key (list_sort key l).
Proof.
  pose proof (list_sort_sorted key l) as H.
  induction H as [|x s Hs IH Hx]; intros i j a b Hij Hi Hj.
  - by rewrite lookup_nil in Hi.
  - destruct j as [|j]; [lia|]. simpl in Hj.
    destruct i as [|i]; simpl in Hi.
    + injection Hi as <-. rewrite Forall_forall in Hx.
      apply Hx. by eapply list_elem_of_lookup_2.
    + apply (IH i j); [lia|done..].
Qed.

Lemma sort_insert_stable {A} (key : A -> Z) (k : Z) x (l : list A) :
  filter (fun a => key a = k) (sort_insert key x l)
  = filter (fun a => key a = k) (x :: l).
Proof.
  induction l as [|y l IH]; simpl; [done|].
  case_decide as Hxy; [done|].
  rewrite filter_cons, IH, !filter_cons.
  repeat case_decide; try done. lia.
Qed.

(** [list_sort] keeps findings of the same position in the order in
    which they were found. *)
Lemma list_sort_stable {A} (key : A -> Z) (k : Z) (l : list A) :
  filter (fun a => key a = k) (list_sort key l)
  = filter (fun a => key a = k) l.
Proof.
  induction l as [|x l IH]; simpl; [done|].
  by rewrite sort_insert_stable, !filter_cons, IH.
Qed.

(** [_sort], had it been called on a dirty collection, would have put
    the errors in position order. *)
Lemma _sort_sorts self :
  _sorted self = false ->
  let after := (_sort self).2 in
  ascending position (errors after)
  /\ errors after ≡ₚ errors self
  /\ (forall k, filter (fun e => position e = k) (errors after)
           = filter (fun e => position e = k) (errors self))
  /\ _sorted after = true.
Proof.
  intros Hdirty. unfold _sort, mbind, M_bind, get. rewrite Hdirty. simpl.
  split; [apply (list_sort_ascending position)|].
  split; [apply (list_sort_Permutation position)|].
  split; [|done]. intros k. apply (list_sort_stable position).
Qed.

Lemma sorted_by_key_unique {A} (key : A -> Z) (l1 l2 : list A) :
  StronglySorted (fun a b => (key a <= key b)%Z) l1 ->
  StronglySorted (fun a b => (key a <= key b)%Z) l2 ->
  (forall k, filter (fun a => key a = k) l1 = filter (fun a => key a = k) l2) ->
  l1 = l2.
Proof.
  intros H1. revert l2.
  induction H1 as [|x l1 Hl1 IH Hx]; intros l2 H2 Hfilter.
  - destruct l2 as [|y l2]; [done|].
    specialize (Hfilter (key y)). rewrite filter_cons in Hfilter.
    by rewrite decide_True in Hfilter.
  - destruct H2 as [|y l2 Hl2 Hy].
    { specialize (Hfilter (key x)). rewrite filter_cons in Hfilter.
      by rewrite decide_True in Hfilter. }
    assert (Hxy : key x = key y).
    { assert (Hxin : x ∈ y :: l2).
      { eapply (list_elem_of_filter (fun a => key a = key x)).
        rewrite <- Hfilter, filter_cons, decide_True by done. by left. }
      assert (Hyin : y ∈ x :: l1).
      { eapply (list_elem_of_filter (fun a => key a = key y)).
        rewrite Hfilter, filter_cons, decide_True by done. by left. }
      rewrite Forall_forall in Hx, Hy.
      apply elem_of_cons in Hxin as [->|Hxin]; [done|].
      apply elem_of_cons in Hyin as [->|Hyin]; [done|].
      specialize (Hx _ Hyin). specialize (Hy _ Hxin). simpl in *. lia. }
    pose proof (Hfilter (key x)) as Hhead.
    rewrite !filter_cons, decide_True in Hhead by done.
    rewrite (decide_True (P := key y = key x)) in Hhead by done.
    injection Hhead as -> Htail. f_equal.
    apply IH; [done|]. intros k.
    destruct (decide (key y = k)) as [<-|Hne]; [done|].
    specialize (Hfilter k). rewrite !filter_cons in Hfilter.
    by rewrite !decide_False in Hfilter.
Qed.

Lemma list_sort_unique {A} (key : A -> Z) (l1 l2 : list A) :
  (forall k, filter (fun a => key a = k) l1 = filter (fun a => key a = k) l2) ->
  list_sort key l1 = list_sort key l2.
Proof.
  intros Hfilter. apply (sorted_by_key_unique key);
    [apply list_sort_sorted..|].
  intros k. by rewrite !list_sort_stable.
Qed.

Lemma list_sort_again {A} (key : A -> Z) (l : list A) :
  list_sort key (list_sort key l) = list_sort key l.
Proof. apply list_sort_unique. intros k. apply list_sort_stable. Qed.

(** C8: report generation sorts the collection of findings by the
    position of the unit each belongs to, stably: the errors of the
    report are in ascending order of position, they are the collected
    errors, and errors of the same unit position keep the order in which
    they were found.  The checker's collection is in that order after
    the call as well.  The order in which runs appended findings of
    different positions plays no part: two collections that agree
    position by position give the same report. *)
Theorem report_is_in_position_order self verbosity filename template :
  let outcome := get_error_report verbosity filename template self in
  exists report,
    outcome.1 = Return report
    /\ ascending position (ErrorReport.errors report)
    /\ ErrorReport.errors report ≡ₚ errors self
    /\ (forall k, filter (fun e => position e = k) (ErrorReport.errors report)
             = filter (fun e => position e = k) (errors self))
    /\ errors outcome.2 = ErrorReport.errors report
    /\ (forall self' report',
          (forall k, filter (fun e => position e = k) (errors self')
                = filter (fun e => position e = k) (errors self)) ->
          (get_error_report verbosity filename template self').1
          = Return report' ->
          ErrorReport.errors report' = ErrorReport.errors report).
Proof.
  cbv zeta. rewrite get_error_report_hands_over. cbn [fst snd].
  eexists. split; [done|]. cbn [ErrorReport.errors].
  split; [apply (list_sort_ascending position)|].
  split; [apply (list_sort_Permutation position)|].
  split; [intros k; apply (list_sort_stable position)|].
  split; [done|].
  intros self' report' Hsame. rewrite get_error_report_hands_over.
  cbn [fst]. intros [= <-]. cbn [ErrorReport.errors].
  by apply (list_sort_unique position).
Qed.

(** *** Raised exceptions, described variables, missing types *)

(** X1: the raises check appends exactly one MissingRaise finding per
    exception the function raises that the Raises section does not list
    and that survives suppression, exactly one ExcessRaise finding per
    listed exception the function does not raise and that survives
    suppression, and nothing else; nothing when the two sets are
    equal. *)
Theorem raises_presence self d function :
  docstring self = Some d ->
  let cfg := config self in
  let fn := FunctionDescription.function function in
  let A := FunctionDescription.raises function in
  let D := set_of (items_or_empty (get_items d RAISES_SECTION)) in
  let missing := filter_suppressed cfg d (error_code MissingRaise) (A ∖ D) in
  let excess := filter_suppressed cfg d (error_code ExcessRaise) (D ∖ A) in
  let out := appended (_check_raises error_code function) self in
  NoDup out
  /\ (forall e, e ∈ out <->
       (exists n, n ∈ missing /\ e = MissingRaiseError fn n)
       \/ (exists n, n ∈ excess
                     /\ e = ExcessRaiseError fn n
                           (or_else (get_line_numbers_for_value
                                       d "raises-section" n)
                                    (get_line_numbers d "raises-section"))))
  /\ (A = D -> out = []).
Proof.
  clear from_google from_sphinx. intros Hd. cbv zeta.
  rewrite (appends_appended _ _ _ _ _
             (_check_raises_appends d (config self) function) Hd eq_refl).
  pose proof (filter_suppressed_subseteq (config self) d
                (error_code MissingRaise)
                (FunctionDescription.raises function
                 ∖ set_of (items_or_empty (get_items d RAISES_SECTION))))
    as Hm.
  pose proof (filter_suppressed_subseteq (config self) d
                (error_code ExcessRaise)
                (set_of (items_or_empty (get_items d RAISES_SECTION))
                 ∖ FunctionDescription.raises function))
    as He.
  remember (FunctionDescription.raises function) as A eqn:HA.
  remember (set_of (items_or_empty (get_items d RAISES_SECTION)))
    as D eqn:HD.
  remember (filter_suppressed (config self) d
              (error_code MissingRaise) (A ∖ D)) as missing eqn:Hmiss.
  remember (filter_suppressed (config self) d
              (error_code ExcessRaise) (D ∖ A)) as excess eqn:Hexc.
  split; [|split].
  - apply NoDup_app. split; [|split].
    + apply NoDup_fmap_2; [|apply NoDup_elements].
      intros x y Hxy. by injection Hxy.
    + intros e (x & -> & _)%list_elem_of_fmap (y & Hy & _)%list_elem_of_fmap.
      discriminate.
    + apply NoDup_fmap_2; [|apply NoDup_elements].
      intros x y Hxy. by injection Hxy.
  - intros e. rewrite elem_of_app, !list_elem_of_fmap.
    split.
    + intros [(n & -> & Hn)|(n & -> & Hn)]; [left|right];
        exists n; by rewrite <- elem_of_elements.
    + intros [(n & Hn & ->)|(n & Hn & ->)]; [left|right];
        exists n; by rewrite elem_of_elements.
  - intros HAD.
    assert (missing = ∅) as -> by (clear Hmiss Hexc HA HD; set_solver).
    assert (excess = ∅) as -> by (clear Hexc HA HD; set_solver).
    by rewrite elements_empty.
Qed.

(** X2: the variables check appends exactly one ExcessVariable finding
    per variable the Variables section describes that the function does
    not have, and nothing else, whatever the ignore list and the
    suppression index hold; a variable of the function that is not
    described is never reported. *)
Theorem excess_variables_only self d function :
  docstring self = Some d ->
  let fn := FunctionDescription.function function in
  let described := items_or_empty (get_items d VARIABLES_SECTION) in
  let actual := FunctionDescription.variables function in
  let out := appended (_check_variables function) self in
  NoDup out
  /\ (forall e, e ∈ out <->
       exists n, n ∈ described /\ (n ∉ actual)
                 /\ e = ExcessVariableError fn n
                       (or_else (get_line_numbers_for_value
                                   d "variables-section" n)
                                (get_line_numbers d "variables-section")))
  /\ ((forall n, n ∈ described -> n ∈ actual) -> out = []).
Proof.
  intros Hd. cbv zeta.
  rewrite (appends_appended _ _ _ _ _
             (_check_variables_appends d (config self) function) Hd eq_refl).
  unfold excess_variables, set_of. split; [|split].
  - apply NoDup_fmap_2; [|apply NoDup_elements].
    intros x y Hxy. by injection Hxy.
  - intros e. rewrite list_elem_of_fmap. split.
    + intros (n & -> & Hn). exists n.
      apply elem_of_elements, elem_of_difference in Hn as [H1 H2].
      rewrite elem_of_list_to_set in H1, H2. done.
    + intros (n & H1 & H2 & ->). exists n. split; [done|].
      apply elem_of_elements, elem_of_difference.
      by rewrite !elem_of_list_to_set.
  - intros Hsub.
    replace (list_to_set (items_or_empty (get_items d VARIABLES_SECTION))
             ∖ list_to_set (FunctionDescription.variables function))
      with (∅ : gset string); [by rewrite elements_empty|].
    symmetry. apply set_eq. intros n.
    rewrite elem_of_difference, !elem_of_list_to_set.
    split; [|by intros ?%not_elem_of_empty]. intros [H1 H2].
    destruct H2. by apply Hsub.
Qed.

Lemma dict_get_dict_set {V} (k k' : string) (v : V) (l : list (string * V)) :
  dict_get k' (dict_set k v l)
  = if decide (k = k') then Some v else dict_get k' l.
Proof.
  induction l as [|[k0 v0] l IH]; simpl.
  - by destruct (decide (k = k')).
  - destruct (decide (k0 = k)) as [->|Hne]; simpl.
    + by destruct (decide (k = k')).
    + rewrite IH. destruct (decide (k0 = k')) as [->|]; [|done].
      by rewrite decide_False.
Qed.

Lemma dict_set_keys {V} (k : string) (v : V) (l : list (string * V)) :
  (dict_set k v l).*1 = if decide (k ∈ l.*1) then l.*1 else l.*1 ++ [k].
Proof.
  induction l as [|[k0 v0] l IH]; [done|]. cbn [dict_set].
  destruct (decide (k0 = k)) as [->|Hne]; rewrite !fmap_cons; cbn [fst].
  - rewrite decide_True; [done|]. by left.
  - rewrite IH. destruct (decide (k ∈ l.*1)) as [Hin|Hnin].
    + rewrite decide_True; [done|]. by right.
    + rewrite decide_False; [done|].
      intros [->|?]%elem_of_cons; done.
Qed.

Lemma NoDup_dict_keys {V} (pairs : list (string * V)) :
  NoDup (dict pairs).*1.
Proof.
  unfold dict.
  assert (H : forall acc : list (string * V),
             NoDup acc.*1 ->
             NoDup (foldl (fun m kv => dict_set kv.1 kv.2 m) acc pairs).*1).
  { induction pairs as [|[k v] pairs IH]; intros acc Hacc; simpl; [done|].
    apply IH. rewrite dict_set_keys. case_decide; [done|].
    apply NoDup_app. split; [done|]. split; [|apply NoDup_singleton].
    by intros x Hx ->%list_elem_of_singleton. }
  apply H. constructor.
Qed.

Lemma elem_of_dict_get {V} (k : string) (v : V) (l : list (string * V)) :
  NoDup l.*1 -> ((k, v) ∈ l <-> dict_get k l = Some v).
Proof.
  induction l as [|[k0 v0] l IH]; simpl; intros Hnd.
  - split; [by intros ?%elem_of_nil|done].
  - apply NoDup_cons in Hnd as [Hk0 Hnd].
    destruct (decide (k0 = k)) as [->|Hne].
    + split.
      * intros [[= ->]|Hin]%elem_of_cons; [done|].
        destruct Hk0. apply list_elem_of_fmap. by exists (k, v).
      * intros [= ->]. by left.
    + rewrite <- (IH Hnd). split.
      * intros [[= ? ?]|Hin]%elem_of_cons; done.
      * intros Hin. by right.
Qed.

Lemma _check_parameter_types_missing_appends d cfg function :
  appends d cfg (_check_parameter_types_missing error_code function)
    (if is_kind_suppressed cfg d (error_code ParameterTypeMissing) then []
     else
       dict (zip (items_or_empty (get_items d ARGUMENTS_SECTION))
                 (types_or_empty (get_types d ARGUMENTS_SECTION)))
       ≫= missing_type_of error_code d function).
Proof.
  unfold _check_parameter_types_missing.
  eapply appends_bind; [apply _ignore_error_yields|].
  destruct (is_kind_suppressed cfg d (error_code ParameterTypeMissing));
    [apply appends_pass|].
  eapply appends_bind; [apply yields_self_docstring|].
  eapply appends_bind; [apply yields_self_docstring|].
  apply appends_for. intros [name [t|]] _; simpl; [apply appends_pass|].
  destruct (negb _); [|apply appends_pass].
  eapply appends_bind; [apply yields_self_docstring|].
  eapply appends_bind; [apply yields_self_docstring|].
  apply appends_append.
Qed.

Lemma elem_of_missing_type_of d function name argument_type e :
  e ∈ missing_type_of error_code d function (name, argument_type) <->
  argument_type = None
  /\ ~ name_suppressed d (error_code ParameterTypeMissing) name
  /\ e = ParameterTypeMissingError
           (FunctionDescription.function function) name
           (or_else (get_line_numbers_for_value d "ident" name)
                    (get_line_numbers d "arguments-section")).
Proof.
  unfold missing_type_of.
  pose proof (name_has_noqa_spec d (error_code ParameterTypeMissing) name)
    as Hspec.
  destruct argument_type as [t|].
  { split; [by intros ?%elem_of_nil | by intros ([=] & _)]. }
  destruct (match get_noqas d !! _ with Some _ => _ | None => _ end); simpl.
  - split; [by intros ?%elem_of_nil|].
    intros (_ & Hn & _). destruct Hn. by apply Hspec.
  - rewrite list_elem_of_singleton. split.
    + intros ->. repeat split. intros Hn. by apply Hspec in Hn.
    + by intros (_ & _ & ->).
Qed.

Lemma NoDup_missing_types d function (l : list (string * option string)) :
  NoDup l.*1 -> NoDup (l ≫= missing_type_of error_code d function).
Proof.
  induction l as [|[k t] l IH]; csimpl; intros Hnd; [constructor|].
  apply NoDup_cons in Hnd as [Hk Hnd].
  apply NoDup_app. split; [|split; [|by apply IH]].
  - unfold missing_type_of. destruct t; [constructor|].
    destruct (negb _); [apply NoDup_singleton|constructor].
  - intros e (_ & _ & ->)%elem_of_missing_type_of
           ([k' t'] & (_ & _ & [= ->])%elem_of_missing_type_of
            & Hin)%list_elem_of_bind.
    destruct Hk. apply list_elem_of_fmap. by exists (k', t').
Qed.

(** X3: unless the missing-type code is suppressed for the whole kind, in
    which case nothing is appended, the missing-type check appends
    exactly one ParameterTypeMissing finding per documented argument
    whose documented type is absent and whose name has no suppression
    entry for the code, and nothing else; what the function declares
    plays no part. *)
Theorem parameter_type_missing self d function :
  docstring self = Some d ->
  let cfg := config self in
  let fn := FunctionDescription.function function in
  let code := error_code ParameterTypeMissing in
  let out :=
    appended (_check_parameter_types_missing error_code function) self in
  NoDup out
  /\ (is_kind_suppressed cfg d code = true -> out = [])
  /\ (is_kind_suppressed cfg d code = false ->
      forall e, e ∈ out <->
        exists name,
          documented_type d name = Some None
          /\ ~ name_suppressed d code name
          /\ e = ParameterTypeMissingError
                   fn name
                   (or_else (get_line_numbers_for_value d "ident" name)
                            (get_line_numbers d "arguments-section"))).
Proof.
  intros Hd. cbv zeta.
  rewrite (appends_appended _ _ _ _ _
             (_check_parameter_types_missing_appends d (config self) function)
             Hd eq_refl).
  split; [|split].
  - destruct (is_kind_suppressed _ d _); [constructor|].
    apply NoDup_missing_types, NoDup_dict_keys.
  - by intros ->.
  - intros -> e. rewrite list_elem_of_bind. unfold documented_type. split.
    + intros ([name t] & (-> & Hn & ->)%elem_of_missing_type_of & Hin).
      exists name. split; [|done].
      apply elem_of_dict_get; [apply NoDup_dict_keys|done].
    + intros (name & Hdoc & Hn & ->). exists (name, None). split.
      * by apply elem_of_missing_type_of.
      * apply elem_of_dict_get; [apply NoDup_dict_keys|done].
Qed.

(** *** The findings of a run, check by check *)

Lemma battery_appends d cfg function l1 l2 l3 l4 l5 l6 l7 l8 :
  appends d cfg (_check_parameters error_code function) l1 ->
  appends d cfg (_check_parameter_types error_code function) l2 ->
  appends d cfg (_check_parameter_types_missing error_code function) l3 ->
  appends d cfg (_check_return error_code function) l4 ->
  appends d cfg (_check_return_type error_code function) l5 ->
  appends d cfg (_check_yield error_code function) l6 ->
  appends d cfg (_check_raises error_code function) l7 ->
  appends d cfg (_check_style function) l8 ->
  forall self, docstring self = Some d -> config self = cfg ->
    (_check_parameters error_code function;;
     _check_parameter_types error_code function;;
     _check_parameter_types_missing error_code function;;
     _check_return error_code function;;
     _check_return_type error_code function;;
     _check_yield error_code function;;
     _check_raises error_code function;;
     _check_style function;;
     modify (set__sorted false)) self
    = (Return tt,
       set__sorted false
         (add_errors (l1 ++ l2 ++ l3 ++ l4 ++ l5 ++ l6 ++ l7 ++ l8 ++ [])
                     self)).
Proof.
  intros H1 H2 H3 H4 H5 H6 H7 H8.
  repeat (apply appends_then_unsorted; [done|]).
  intros self _ _. unfold modify. by rewrite add_errors_nil.
Qed.

Lemma run_checks_with_battery function text cfg d lb :
  FunctionDescription.docstring function = Some text ->
  parser from_google from_sphinx (style cfg) text = Return d ->
  (forall self, docstring self = Some d -> config self = cfg ->
     (_check_parameters error_code function;;
      _check_parameter_types error_code function;;
      _check_parameter_types_missing error_code function;;
      _check_return error_code function;;
      _check_return_type error_code function;;
      _check_yield error_code function;;
      _check_raises error_code function;;
      _check_style function;;
      modify (set__sorted false)) self
     = (Return tt, set__sorted false (add_errors lb self))) ->
  forall self, config self = cfg ->
    run_checks error_code from_google from_sphinx function self
    = (Return tt,
       if short_circuits cfg d
       then add_errors match style cfg with
                       | GOOGLE => []
                       | SPHINX => excess_variables d function
                       end (set_docstring d self)
       else set__sorted false
              (add_errors (match style cfg with
                           | GOOGLE => []
                           | SPHINX => excess_variables d function
                           end ++ lb)
                          (set_docstring d self))).
Proof.
  intros Hdoc Hparse Hb self Hc.
  unfold run_checks. rewrite Hdoc.
  unfold mbind at 1. unfold M_bind at 1. unfold get at 1. rewrite Hc.
  unfold mbind at 1. unfold M_bind at 1.
  match goal with
  | |- (let (r, self') := ?m self in _) = _ =>
      assert (Hfirst :
               m self
               = (Return tt,
                  add_errors match style cfg with
                             | GOOGLE => []
                             | SPHINX => excess_variables d function
                             end (set_docstring d self)))
  end.
  { unfold parser in Hparse.
    destruct (style cfg); unfold mbind, M_bind, call, modify;
      rewrite Hparse.
    - by rewrite add_errors_nil.
    - by apply (_check_variables_appends d cfg function). }
  rewrite Hfirst. clear Hfirst.
  set (lv := match style cfg with
             | GOOGLE => []
             | SPHINX => excess_variables d function
             end).
  rewrite <- add_errors_app.
  set (s1 := add_errors lv (set_docstring d self)).
  assert (Hd1 : docstring s1 = Some d) by done.
  assert (Hc1 : config s1 = cfg) by done.
  clearbody s1.
  specialize (Hb s1 Hd1 Hc1).
  pose proof (yields_self_docstring d cfg s1 Hd1 Hc1) as Hsd.
  unfold short_circuits.
  unfold mbind, M_bind in *. unfold get at 1. rewrite Hc1.
  destruct (bool_decide (strictness cfg <> FULL_DESCRIPTION)); simpl andb.
  + rewrite Hsd. unfold mret at 1, M_ret at 1.
    destruct (satisfies_strictness d (strictness cfg)); simpl orb;
      [done|].
    rewrite Hsd. by destruct (ignore_all d).
  + unfold mret at 1, M_ret at 1. simpl orb.
    rewrite Hsd. by destruct (ignore_all d).
Qed.

Lemma run_checks_appended self function text d ready :
  FunctionDescription.docstring function = Some text ->
  parser from_google from_sphinx (style (config self)) text = Return d ->
  short_circuits (config self) d = false ->
  docstring ready = Some d -> config ready = config self ->
  appended (run_checks error_code from_google from_sphinx function) self
  = match style (config self) with
    | GOOGLE => []
    | SPHINX => appended (_check_variables function) ready
    end
    ++ appended (_check_parameters error_code function) ready
    ++ appended (_check_parameter_types error_code function) ready
    ++ appended (_check_parameter_types_missing error_code function) ready
    ++ appended (_check_return error_code function) ready
    ++ appended (_check_return_type error_code function) ready
    ++ appended (_check_yield error_code function) ready
    ++ appended (_check_raises error_code function) ready
    ++ appended (_check_style function) ready.
Proof.
  intros Hdoc Hparse Hshort Hd Hc.
  pose proof (_check_variables_appends d (config self) function) as H0.
  pose proof (_check_parameters_appends d (config self) function) as H1.
  pose proof (_check_parameter_types_appends d (config self) function) as H2.
  pose proof (_check_parameter_types_missing_appends
                d (config self) function) as H3.
  pose proof (_check_return_appends d (config self) function) as H4.
  pose proof (_check_return_type_appends d (config self) function) as H5.
  pose proof (_check_yield_appends d (config self) function) as H6.
  pose proof (_check_raises_appends d (config self) function) as H7.
  pose proof (_check_style_appends d (config self) function) as H8.
  cbv zeta in H1, H4, H6, H7.
  rewrite (appends_appended _ _ _ _ ready H0 Hd Hc),
          (appends_appended _ _ _ _ ready H1 Hd Hc),
          (appends_appended _ _ _ _ ready H2 Hd Hc),
          (appends_appended _ _ _ _ ready H3 Hd Hc),
          (appends_appended _ _ _ _ ready H4 Hd Hc),
          (appends_appended _ _ _ _ ready H5 Hd Hc),
          (appends_appended _ _ _ _ ready H6 Hd Hc),
          (appends_appended _ _ _ _ ready H7 Hd Hc),
          (appends_appended _ _ _ _ ready H8 Hd Hc).
  pose proof (run_checks_with_battery function text (config self) d _
                Hdoc Hparse
                (battery_appends d (config self) function _ _ _ _ _ _ _ _
                   H1 H2 H3 H4 H5 H6 H7 H8) self eq_refl) as Hrun.
  rewrite Hshort in Hrun. unfold appended at 1. rewrite Hrun. simpl.
  rewrite drop_app_length. f_equal.
  by rewrite !app_nil_r.
Qed.

(** X4: a run that gets past the parser and the two short circuits
    appends the findings of its checks in one fixed order: variables
    (under the Sphinx style only), parameters, parameter types, missing
    parameter types, return, return type, yield, raises, style; each
    check contributes what it appends on its own to a checker that
    holds the parsed docstring. *)
Theorem run_checks_order self function text d ready :
  FunctionDescription.docstring function = Some text ->
  parser from_google from_sphinx (style (config self)) text = Return d ->
  short_circuits (config self) d = false ->
  docstring ready = Some d -> config ready = config self ->
  appended (run_checks error_code from_google from_sphinx function) self
  = match style (config self) with
    | GOOGLE => []
    | SPHINX => appended (_check_variables function) ready
    end
    ++ appended (_check_parameters error_code function) ready
    ++ appended (_check_parameter_types error_code function) ready
    ++ appended (_check_parameter_types_missing error_code function) ready
    ++ appended (_check_return error_code function) ready
    ++ appended (_check_return_type error_code function) ready
    ++ appended (_check_yield error_code function) ready
    ++ appended (_check_raises error_code function) ready
    ++ appended (_check_style function) ready.
Proof. apply run_checks_appended. Qed.

(** *** What a run keeps *)

(** X5: a run never removes or reorders the errors already collected,
    and never touches the configuration, the [raise_errors] flag or the
    pool.  It clears the [_sorted] flag exactly when the battery ran: a
    unit without docstring, a fault of the parser and a short circuit
    leave the flag as it was, the last even when the variables check
    has appended findings. *)
Theorem run_checks_keeps self function :
  let after :=
    (run_checks error_code from_google from_sphinx function self).2 in
  errors self `prefix_of` errors after
  /\ config after = config self
  /\ raise_errors after = raise_errors self
  /\ executor after = executor self
  /\ _sorted after
     = match FunctionDescription.docstring function with
       | None => _sorted self
       | Some text =>
           match parser from_google from_sphinx (style (config self)) text with
           | Raise _ => _sorted self
           | Return d =>
               if short_circuits (config self) d then _sorted self else false
           end
       end.
Proof.
  cbv zeta.
  destruct (FunctionDescription.docstring function) as [text|] eqn:Hdoc.
  - pose proof (run_checks_outcome _ function text (config self) Hdoc
                  (checks_emit_True (config self) function)) as H.
    destruct (parser _ _ _ _) as [d|e].
    + destruct H as (lb & _ & H). rewrite (H self eq_refl). simpl.
      destruct (short_circuits (config self) d); simpl;
        (split; [by eexists | by split_and!]).
    + rewrite (H self eq_refl). simpl.
      split; [by exists []; rewrite app_nil_r | by split_and!].
  - unfold run_checks. rewrite Hdoc. simpl.
    split; [by exists []; rewrite app_nil_r | by split_and!].
Qed.

Lemma checks_emit_owner cfg function :
  checks_emit error_code
    (fun e => DarglintError.function e = FunctionDescription.function function)
    cfg function.
Proof.
  intros d. repeat split.
  - eapply appends_emits; [apply _check_variables_appends|].
    by apply Forall_fmap, Forall_true.
  - eapply appends_emits; [apply _check_parameters_appends|].
    apply Forall_app. split; by apply Forall_fmap, Forall_true.
  - eapply appends_emits; [apply _check_parameter_types_appends|].
    destruct (is_kind_suppressed cfg d _); [constructor|].
    apply Forall_forall.
    intros e ([name [x a]] & He & _)%list_elem_of_bind.
    by apply elem_of_mismatch_of in He as (? & ? & _ & _ & _ & _ & ->).
  - by apply _check_parameter_types_missing_emits.
  - eapply appends_emits; [apply _check_return_appends|].
    destruct (FunctionDescription.has_return function),
             (get_section d RETURNS_SECTION); try constructor.
    all: destruct (is_kind_suppressed cfg d _); by repeat constructor.
  - eapply appends_emits; [apply _check_return_type_appends|].
    destruct (is_kind_suppressed cfg d _); [constructor|].
    destruct (FunctionDescription.return_type function) as [fun_type|];
      [|constructor].
    destruct (get_types d RETURNS_SECTION) as [[[|c doc_type]|]|];
      try constructor.
    case_bool_decide; by repeat constructor.
  - eapply appends_emits; [apply _check_yield_appends|].
    destruct (FunctionDescription.has_yield function),
             (get_section d YIELDS_SECTION); try constructor.
    all: destruct (is_kind_suppressed cfg d _); by repeat constructor.
  - eapply appends_emits; [apply _check_raises_appends|].
    apply Forall_app. split; by apply Forall_fmap, Forall_true.
  - eapply appends_emits; [apply _check_style_appends|].
    apply Forall_fmap, Forall_true. by intros [c ln].
Qed.

(** X6: every finding a run appends carries the function node of the
    unit the run was given, so its position is the unit's line. *)
Theorem findings_belong_to_unit self function e :
  e ∈ appended (run_checks error_code from_google from_sphinx function) self ->
  DarglintError.function e = FunctionDescription.function function
  /\ position e = FunctionDef.lineno (FunctionDescription.function function).
Proof.
  intros He.
  assert (H : DarglintError.function e
              = FunctionDescription.function function);
    [|by unfold position; rewrite H].
  revert He. unfold appended.
  destruct (FunctionDescription.docstring function) as [text|] eqn:Hdoc.
  - pose proof (run_checks_outcome _ function text (config self) Hdoc
                  (checks_emit_owner (config self) function)) as H.
    destruct (parser _ _ _ _) as [d|err].
    + destruct H as (lb & HP & H). rewrite (H self eq_refl). simpl.
      assert (Hv : Forall (fun e => DarglintError.function e
                                 = FunctionDescription.function function)
                          match style (config self) with
                          | GOOGLE => []
                          | SPHINX => excess_variables d function
                          end).
      { destruct (style (config self)); [constructor|].
        by apply Forall_fmap, Forall_true. }
      rewrite Forall_forall in Hv, HP.
      destruct (short_circuits (config self) d); simpl;
        rewrite drop_app_length.
      * apply Hv.
      * intros [?|?]%elem_of_app; auto.
    + rewrite (H self eq_refl). simpl. rewrite drop_all.
      by intros ?%elem_of_nil.
  - unfold run_checks. rewrite Hdoc. simpl. rewrite drop_all.
    by intros ?%elem_of_nil.
Qed.

(** *** Scheduling and reporting *)

(** X7: a unit whose docstring makes the parser raise is isolated: on an
    open pool, scheduling it returns normally and leaves the collected
    errors as they were, and a unit scheduled after it gets the outcome
    and the errors it would have got without it. *)
Theorem parser_fault_is_isolated self faulty text e function :
  FunctionDescription.docstring faulty = Some text ->
  parser from_google from_sphinx (style (config self)) text = Raise e ->
  ThreadPoolExecutor._shutdown (executor self) = false ->
  let schedule_ := schedule error_code from_google from_sphinx in
  (schedule_ faulty self).1 = Return tt
  /\ errors (schedule_ faulty self).2 = errors self
  /\ ((schedule_ faulty;; schedule_ function) self).1
     = (schedule_ function self).1
  /\ errors ((schedule_ faulty;; schedule_ function) self).2
     = errors (schedule_ function self).2.
Proof.
  intros Hdoc Hparse Hopen. cbv zeta.
  destruct (parser_fault_is_kept_in_the_future
              self faulty text e 0%Z "" None Hdoc Hparse Hopen)
    as (_ & Hs & _).
  unfold mbind, M_bind. rewrite Hs. simpl.
  split; [done|]. split; [done|].
  set (self' := set_executor _ self).
  destruct (run_checks_frame (config self) function) as (l & Hframe).
  destruct (Hframe self eq_refl) as (He1 & _).
  destruct (Hframe self' eq_refl) as (He2 & _).
  destruct (schedule_open function self Hopen) as (Hr1 & Hse1 & _).
  destruct (schedule_open function self' eq_refl) as (Hr2 & Hse2 & _).
  split; [by rewrite Hr1, Hr2|].
  by rewrite Hse1, Hse2, He1, He2.
Qed.

Lemma schedule_on_closed_pool functions self :
  ThreadPoolExecutor._shutdown (executor self) = true ->
  let after :=
    for_ functions (schedule error_code from_google from_sphinx) self in
  after.2 = self
  /\ (after.1 = Return tt <->
      Forall (fun function => FunctionDescription.docstring function = None)
             functions).
Proof.
  intros Hshut. cbv zeta.
  induction functions as [|function functions [IH1 IH2]]; [done|].
  simpl. unfold mbind, M_bind, schedule.
  destruct (FunctionDescription.docstring function) as [text|] eqn:Hdoc.
  - unfold submit, mbind, M_bind, get. rewrite Hshut. simpl.
    split; [done|]. split; [done|]. intros H.
    apply Forall_cons in H as [H _]. by rewrite Hdoc in H.
  - simpl. split; [done|]. rewrite IH2. split.
    + intros H. by constructor.
    + by intros [_ H]%Forall_cons.
Qed.

(** X8: a unit without docstring is never scheduled: [schedule] returns
    and leaves the checker as it was, whatever the state of the pool.
    Once [get_error_report] has shut the pool down, no unit that is
    scheduled runs a check: whatever units are scheduled then, the
    checker stays as the report left it, and the calls return normally
    only if none of the units has a docstring; a documented unit makes
    [schedule] raise. *)
Theorem schedule_edge_cases self function functions
        verbosity filename template :
  let closed := (get_error_report verbosity filename template self).2 in
  let schedule_ := schedule error_code from_google from_sphinx in
  (FunctionDescription.docstring function = None ->
   schedule_ function self = (Return tt, self))
  /\ (FunctionDescription.docstring function <> None ->
      schedule_ function closed = (Raise RuntimeError, closed))
  /\ (for_ functions schedule_ closed).2 = closed
  /\ ((for_ functions schedule_ closed).1 = Return tt <->
      Forall (fun function => FunctionDescription.docstring function = None)
             functions).
Proof.
  cbv zeta. split; [|split].
  - intros Hdoc. unfold schedule. by rewrite Hdoc.
  - intros Hdoc. unfold schedule.
    by destruct (FunctionDescription.docstring function).
  - by apply schedule_on_closed_pool.
Qed.

(** X9: [get_error_report] never raises, also on a pool that is already
    shut down; it leaves the configuration alone and shuts the pool
    down; the report holds the errors of the checker in the order the
    checker is left with; the report's template is the one given unless
    that is absent or empty, in which case it is the configuration's;
    and calling it again gives the same report and the same checker. *)
Theorem get_error_report_again self verbosity filename template :
  let first := get_error_report verbosity filename template self in
  (exists report, first.1 = Return report
                  /\ ErrorReport.errors report = errors first.2
                  /\ ErrorReport.errors report ≡ₚ errors self
                  /\ ErrorReport.message_template report
                     = match template with
                       | Some (String c t) => Some (String c t)
                       | _ => message_template (config self)
                       end)
  /\ config first.2 = config self
  /\ ThreadPoolExecutor._shutdown (executor first.2) = true
  /\ get_error_report verbosity filename template first.2 = first.
Proof.
  cbv zeta. rewrite !get_error_report_hands_over. cbn [fst snd].
  split; [|split; [done|split; [done|]]].
  - eexists. split; [done|]. split; [done|].
    split; [apply (list_sort_Permutation position)|].
    simpl. by destruct template as [[|c t]|].
  - simpl. unfold sorted_by_position.
    by rewrite (list_sort_again
                  (fun x => FunctionDef.lineno (DarglintError.function x))).
Qed.

(** X10: [_sort] on a dirty collection puts the errors in ascending
    order of position, keeps every error, keeps errors of the same
    position in the order they had, and marks the collection sorted; on
    a collection marked sorted it changes nothing, whatever the order of
    the errors; sorting twice is sorting once. *)
Theorem sort_contract self :
  let after := (_sort self).2 in
  (_sort self).1 = Return tt
  /\ _sorted after = true
  /\ errors after ≡ₚ errors self
  /\ (forall k, filter (fun e => position e = k) (errors after)
           = filter (fun e => position e = k) (errors self))
  /\ (_sorted self = true -> after = self)
  /\ (_sorted self = false -> ascending position (errors after))
  /\ _sort after = (Return tt, after).
Proof.
  cbv zeta. unfold _sort, mbind, M_bind, get.
  destruct (_sorted self) eqn:Hs; simpl.
  - rewrite Hs. simpl. repeat split; done.
  - split; [done|]. split; [done|].
    split; [apply (list_sort_Permutation position)|].
    split; [intros k; apply (list_sort_stable position)|].
    split; [done|].
    split; [intros _; apply (list_sort_ascending position)|done].
Qed.

(** *** A unit that agrees with its docstring *)

Lemma filter_suppressed_of_empty cfg d code (names : gset string) :
  names = ∅ -> elements (filter_suppressed cfg d code names) = [].
Proof.
  clear error_code from_google from_sphinx.
  intros ->.
  pose proof (filter_suppressed_subseteq cfg d code ∅) as H.
  replace (filter_suppressed cfg d code ∅) with (∅ : gset string);
    [apply elements_empty|].
  symmetry. apply set_eq. intros n. split; [|by intros ?%not_elem_of_empty].
  intros Hn. by apply H.
Qed.

Lemma difference_self_empty (X Y : gset string) : X = Y -> X ∖ Y = ∅.
Proof.
  clear error_code from_google from_sphinx.
  intros ->. apply set_eq. intros n. rewrite elem_of_difference.
  split; [by intros [? ?] | by intros ?%not_elem_of_empty].
Qed.

Lemma elem_of_parameter_type_findings d function e :
  e ∈ zip (FunctionDescription.argument_names function)
          (zip (FunctionDescription.argument_types function)
               ((fun name => match documented_type d name with
                          | None => None
                          | Some t => t
                          end)
                  <$> FunctionDescription.argument_names function))
        ≫= mismatch_of error_code d function ->
  exists (i : nat) name expected actual,
    FunctionDescription.argument_names function !! i = Some name
    /\ FunctionDescription.argument_types function !! i
       = Some (Some expected)
    /\ documented_type d name = Some (Some actual)
    /\ expected <> actual.
Proof.
  intros ([name [expected actual]] & He & Hin)%list_elem_of_bind.
  apply list_elem_of_lookup in Hin as [i Hi].
  apply lookup_zip_with_Some in Hi
    as (name' & [expected' actual'] & [= <- <- <-] & Hname & Hi).
  apply lookup_zip_with_Some in Hi
    as (? & ? & [= <- <-] & Htype & Hdoc).
  rewrite list_lookup_fmap, Hname in Hdoc. simpl in Hdoc.
  apply elem_of_mismatch_of in He
    as (x & a & -> & -> & Hne & _ & _).
  exists i, name, x, a. repeat split; try done.
  injection Hdoc as Hdoc.
  by destruct (documented_type d name) as [t|]; simplify_eq.
Qed.

(** X11: a unit that agrees with its docstring gets no finding.  When
    the argument names, the raised exceptions and the presence of return
    and yield are the same on both sides, every documented argument has
    a type, the types declared on both sides are equal, the parser found
    no style error and, under the Sphinx style, every described variable
    is a variable of the function, a run appends nothing, whatever the
    ignore list, the suppression index and the strictness. *)
Theorem consistent_unit_has_no_findings self function text d :
  FunctionDescription.docstring function = Some text ->
  parser from_google from_sphinx (style (config self)) text = Return d ->
  consistent (style (config self)) d function ->
  appended (run_checks error_code from_google from_sphinx function) self = [].
Proof.
  intros Hdoc Hparse
         (Hargs & Htypes & Htyped & Hret & Hrtype & Hyield & Hraises
          & Hstyle & Hvars).
  assert (Hv : match style (config self) with
               | GOOGLE => []
               | SPHINX => excess_variables d function
               end = []).
  { destruct (style (config self)); [done|]. unfold excess_variables.
    replace (set_of (items_or_empty (get_items d VARIABLES_SECTION))
             ∖ set_of (FunctionDescription.variables function))
      with (∅ : gset string); [by rewrite elements_empty|].
    symmetry. apply set_eq. intros n. rewrite elem_of_difference.
    split; [|by intros ?%not_elem_of_empty]. intros [H1 H2].
    destruct H2. by apply (Hvars eq_refl). }
  destruct (short_circuits (config self) d) eqn:Hshort.
  { by rewrite (short_circuit_appended self function text d Hdoc Hparse
                  Hshort). }
  rewrite (run_checks_appended self function text d (set_docstring d self)
             Hdoc Hparse Hshort eq_refl eq_refl).
  rewrite (appends_appended _ _ _ _ (set_docstring d self)
             (_check_variables_appends d (config self) function)
             eq_refl eq_refl).
  rewrite (appends_appended _ _ _ _ (set_docstring d self)
             (_check_parameters_appends d (config self) function)
             eq_refl eq_refl).
  rewrite (appends_appended _ _ _ _ (set_docstring d self)
             (_check_parameter_types_appends d (config self) function)
             eq_refl eq_refl).
  rewrite (appends_appended _ _ _ _ (set_docstring d self)
             (_check_parameter_types_missing_appends d (config self) function)
             eq_refl eq_refl).
  rewrite (appends_appended _ _ _ _ (set_docstring d self)
             (_check_return_appends d (config self) function)
             eq_refl eq_refl).
  rewrite (appends_appended _ _ _ _ (set_docstring d self)
             (_check_return_type_appends d (config self) function)
             eq_refl eq_refl).
  rewrite (appends_appended _ _ _ _ (set_docstring d self)
             (_check_yield_appends d (config self) function)
             eq_refl eq_refl).
  rewrite (appends_appended _ _ _ _ (set_docstring d self)
             (_check_raises_appends d (config self) function)
             eq_refl eq_refl).
  rewrite (appends_appended _ _ _ _ (set_docstring d self)
             (_check_style_appends d (config self) function)
             eq_refl eq_refl).
  rewrite Hv, Hstyle. clear Hv.
  rewrite !filter_suppressed_of_empty
    by (apply difference_self_empty; done).
  rewrite <- Hret, <- Hyield. simpl.
  assert (H2 : (if is_kind_suppressed (config self) d
                     (error_code ParameterTypeMismatch)
                then []
                else
                  zip (FunctionDescription.argument_names function)
                      (zip (FunctionDescription.argument_types function)
                           ((fun name => match documented_type d name with
                                      | None => None
                                      | Some t => t
                                      end)
                              <$> FunctionDescription.argument_names function))
                  ≫= mismatch_of error_code d function) = []).
  { destruct (is_kind_suppressed _ d _); [done|].
    apply elem_of_nil_inv. intros e He.
    apply elem_of_parameter_type_findings in He
      as (i & name & x & a & Hname & Htype & Hdoct & Hne).
    destruct Hne. by eapply Htypes. }
  assert (H3 : (if is_kind_suppressed (config self) d
                     (error_code ParameterTypeMissing)
                then []
                else
                  dict (zip (items_or_empty (get_items d ARGUMENTS_SECTION))
                            (types_or_empty (get_types d ARGUMENTS_SECTION)))
                  ≫= missing_type_of error_code d function) = []).
  { destruct (is_kind_suppressed _ d (error_code ParameterTypeMissing));
      [done|].
    apply elem_of_nil_inv.
    intros e ([name t] & He & Hin)%list_elem_of_bind.
    apply elem_of_missing_type_of in He as (Ht & _ & _). subst t.
    destruct (Htyped name). unfold documented_type.
    apply elem_of_dict_get; [apply NoDup_dict_keys|done]. }
  assert (H5 : (if is_kind_suppressed (config self) d
                     (error_code ReturnTypeMismatch)
                then []
                else
                  match FunctionDescription.return_type function,
                        get_types d RETURNS_SECTION with
                  | Some fun_type, Some (TypeStr (String c s)) =>
                      if bool_decide (fun_type <> String c s) then
                        [ReturnTypeMismatchError
                           (FunctionDescription.function function)
                           fun_type (String c s)
                           (get_line_numbers d "returns-section")]
                      else []
                  | _, _ => []
                  end) = []).
  { destruct (is_kind_suppressed _ d (error_code ReturnTypeMismatch));
      [done|].
    destruct (FunctionDescription.return_type function) as [fun_type|] eqn:Hf;
      [|done].
    destruct (get_types d RETURNS_SECTION) as [[[|c doc_type]|]|] eqn:Hg;
      try done.
    rewrite bool_decide_eq_false_2; [done|].
    intros Hne. apply Hne. apply Hrtype; [done|]. by split. }
  rewrite H2, H3, H5.
  by destruct (FunctionDescription.has_return function),
              (FunctionDescription.has_yield function).
Qed.

(** *** Styles and ignore lists *)

Lemma emits_appended P d cfg m self :
  emits P d cfg m -> docstring self = Some d -> config self = cfg ->
  Forall P (appended m self).
Proof.
  intros (l & Hm & HP) Hd Hc.
  by rewrite (appends_appended d cfg m l self Hm Hd Hc).
Qed.

Lemma battery_emits_no_variable d cfg function :
  let P := fun e => DarglintError.cls e <> ExcessVariable in
  emits P d cfg (_check_parameters error_code function)
  /\ emits P d cfg (_check_parameter_types error_code function)
  /\ emits P d cfg (_check_parameter_types_missing error_code function)
  /\ emits P d cfg (_check_return error_code function)
  /\ emits P d cfg (_check_return_type error_code function)
  /\ emits P d cfg (_check_yield error_code function)
  /\ emits P d cfg (_check_raises error_code function)
  /\ emits P d cfg (_check_style function).
Proof.
  intros P. subst P. repeat split.
  - eapply appends_emits; [apply _check_parameters_appends|].
    apply Forall_app. split; by apply Forall_fmap, Forall_true.
  - eapply appends_emits; [apply _check_parameter_types_appends|].
    destruct (is_kind_suppressed cfg d _); [constructor|].
    apply Forall_forall.
    intros e ([name [x a]] & He & _)%list_elem_of_bind.
    by apply elem_of_mismatch_of in He as (? & ? & _ & _ & _ & _ & ->).
  - by apply _check_parameter_types_missing_emits.
  - eapply appends_emits; [apply _check_return_appends|].
    destruct (FunctionDescription.has_return function),
             (get_section d RETURNS_SECTION); try constructor.
    all: destruct (is_kind_suppressed cfg d _); by repeat constructor.
  - eapply appends_emits; [apply _check_return_type_appends|].
    destruct (is_kind_suppressed cfg d _); [constructor|].
    destruct (FunctionDescription.return_type function) as [fun_type|];
      [|constructor].
    destruct (get_types d RETURNS_SECTION) as [[[|c doc_type]|]|];
      try constructor.
    case_bool_decide; by repeat constructor.
  - eapply appends_emits; [apply _check_yield_appends|].
    destruct (FunctionDescription.has_yield function),
             (get_section d YIELDS_SECTION); try constructor.
    all: destruct (is_kind_suppressed cfg d _); by repeat constructor.
  - eapply appends_emits; [apply _check_raises_appends|].
    apply Forall_app. split; by apply Forall_fmap, Forall_true.
  - eapply appends_emits; [apply _check_style_appends|].
    apply Forall_fmap, Forall_true. by intros [c ln].
Qed.

Lemma run_checks_appended_cases self function :
  match FunctionDescription.docstring function with
  | None =>
      appended (run_checks error_code from_google from_sphinx function) self
      = []
  | Some text =>
      match parser from_google from_sphinx (style (config self)) text with
      | Raise _ =>
          appended (run_checks error_code from_google from_sphinx function)
                   self = []
      | Return d =>
          short_circuits (config self) d = true ->
          appended (run_checks error_code from_google from_sphinx function)
                   self
          = match style (config self) with
            | GOOGLE => []
            | SPHINX => excess_variables d function
            end
      end
  end.
Proof.
  destruct (FunctionDescription.docstring function) as [text|] eqn:Hdoc.
  - pose proof (run_checks_outcome _ function text (config self) Hdoc
                  (checks_emit_True (config self) function)) as H.
    destruct (parser _ _ _ _) as [d|err] eqn:Hparse.
    + intros Hshort. by apply (short_circuit_appended self function text d).
    + unfold appended. rewrite (H self eq_refl). simpl. by rewrite drop_all.
  - unfold appended, run_checks. rewrite Hdoc. simpl. by rewrite drop_all.
Qed.

(** X12: under the Google style a run never appends an ExcessVariable
    finding, whatever the docstring describes. *)
Theorem google_reports_no_variable self function e :
  style (config self) = GOOGLE ->
  e ∈ appended (run_checks error_code from_google from_sphinx function) self ->
  DarglintError.cls e <> ExcessVariable.
Proof.
  intros Hstyle.
  pose proof (run_checks_appended_cases self function) as Hcases.
  destruct (FunctionDescription.docstring function) as [text|] eqn:Hdoc;
    [|by rewrite Hcases; intros ?%elem_of_nil].
  destruct (parser _ _ _ _) as [d|err] eqn:Hparse;
    [|by rewrite Hcases; intros ?%elem_of_nil].
  destruct (short_circuits (config self) d) eqn:Hshort.
  { rewrite (Hcases eq_refl), Hstyle. by intros ?%elem_of_nil. }
  rewrite (run_checks_appended self function text d (set_docstring d self)
             Hdoc Hparse Hshort eq_refl eq_refl), Hstyle.
  destruct (battery_emits_no_variable d (config self) function)
    as (H1 & H2 & H3 & H4 & H5 & H6 & H7 & H8).
  apply (fun H => emits_appended _ d (config self) _
                    (set_docstring d self) H eq_refl eq_refl)
    in H1, H2, H3, H4, H5, H6, H7, H8.
  rewrite Forall_forall in H1, H2, H3, H4, H5, H6, H7, H8.
  simpl. rewrite !elem_of_app.
  intros [?|[?|[?|[?|[?|[?|[?|?]]]]]]]; auto.
Qed.

Lemma is_kind_suppressed_mono cfg cfg' d code :
  ignore cfg ⊆ ignore cfg' ->
  is_kind_suppressed cfg' d code = false ->
  is_kind_suppressed cfg d code = false.
Proof.
  clear error_code from_google from_sphinx.
  unfold is_kind_suppressed. intros Hsub [H1 H2]%orb_false_iff.
  rewrite H2, orb_false_r. apply bool_decide_eq_false.
  apply bool_decide_eq_false in H1. intros Hin. apply H1. by apply Hsub.
Qed.

Lemma filter_suppressed_mono cfg cfg' d code (names : gset string) n :
  ignore cfg ⊆ ignore cfg' ->
  n ∈ filter_suppressed cfg' d code names ->
  n ∈ filter_suppressed cfg d code names.
Proof.
  clear error_code from_google from_sphinx.
  intros Hsub. unfold filter_suppressed.
  destruct (is_kind_suppressed cfg' d code) eqn:Hs';
    [by intros ?%not_elem_of_empty|].
  by rewrite (is_kind_suppressed_mono cfg cfg' d code Hsub Hs').
Qed.

Lemma if_suppressed_mono cfg cfg' d code l :
  ignore cfg ⊆ ignore cfg' ->
  (if is_kind_suppressed cfg' d code then [] else l)
  ⊆ (if is_kind_suppressed cfg d code then [] else l).
Proof.
  clear error_code from_google from_sphinx.
  intros Hsub e. destruct (is_kind_suppressed cfg' d code) eqn:Hs';
    [by intros ?%elem_of_nil|].
  by rewrite (is_kind_suppressed_mono cfg cfg' d code Hsub Hs').
Qed.

Lemma battery_mono cfg cfg' d function self self' :
  ignore cfg ⊆ ignore cfg' ->
  docstring self = Some d -> config self = cfg ->
  docstring self' = Some d -> config self' = cfg' ->
  appended (_check_parameters error_code function) self'
    ⊆ appended (_check_parameters error_code function) self
  /\ appended (_check_parameter_types error_code function) self'
       ⊆ appended (_check_parameter_types error_code function) self
  /\ appended (_check_parameter_types_missing error_code function) self'
       ⊆ appended (_check_parameter_types_missing error_code function) self
  /\ appended (_check_return error_code function) self'
       ⊆ appended (_check_return error_code function) self
  /\ appended (_check_return_type error_code function) self'
       ⊆ appended (_check_return_type error_code function) self
  /\ appended (_check_yield error_code function) self'
       ⊆ appended (_check_yield error_code function) self
  /\ appended (_check_raises error_code function) self'
       ⊆ appended (_check_raises error_code function) self
  /\ appended (_check_style function) self'
     = appended (_check_style function) self
  /\ appended (_check_variables function) self'
     = appended (_check_variables function) self.
Proof.
  intros Hsub Hd Hc Hd' Hc'.
  rewrite !(appends_appended _ _ _ _ self'
              (_check_parameters_appends d cfg' function) Hd' Hc'),
          !(appends_appended _ _ _ _ self
              (_check_parameters_appends d cfg function) Hd Hc),
          !(appends_appended _ _ _ _ self'
              (_check_parameter_types_appends d cfg' function) Hd' Hc'),
          !(appends_appended _ _ _ _ self
              (_check_parameter_types_appends d cfg function) Hd Hc),
          !(appends_appended _ _ _ _ self'
              (_check_parameter_types_missing_appends d cfg' function)
              Hd' Hc'),
          !(appends_appended _ _ _ _ self
              (_check_parameter_types_missing_appends d cfg function) Hd Hc),
          !(appends_appended _ _ _ _ self'
              (_check_return_appends d cfg' function) Hd' Hc'),
          !(appends_appended _ _ _ _ self
              (_check_return_appends d cfg function) Hd Hc),
          !(appends_appended _ _ _ _ self'
              (_check_return_type_appends d cfg' function) Hd' Hc'),
          !(appends_appended _ _ _ _ self
              (_check_return_type_appends d cfg function) Hd Hc),
          !(appends_appended _ _ _ _ self'
              (_check_yield_appends d cfg' function) Hd' Hc'),
          !(appends_appended _ _ _ _ self
              (_check_yield_appends d cfg function) Hd Hc),
          !(appends_appended _ _ _ _ self'
              (_check_raises_appends d cfg' function) Hd' Hc'),
          !(appends_appended _ _ _ _ self
              (_check_raises_appends d cfg function) Hd Hc),
          !(appends_appended _ _ _ _ self'
              (_check_style_appends d cfg' function) Hd' Hc'),
          !(appends_appended _ _ _ _ self
              (_check_style_appends d cfg function) Hd Hc),
          !(appends_appended _ _ _ _ self'
              (_check_variables_appends d cfg' function) Hd' Hc'),
          !(appends_appended _ _ _ _ self
              (_check_variables_appends d cfg function) Hd Hc).
  assert (Hsets : forall code (names : gset string)
                    (f : string -> DarglintError.t),
             f <$> elements (filter_suppressed cfg' d code names)
             ⊆ f <$> elements (filter_suppressed cfg d code names)).
  { intros code names f e (n & -> & Hn)%list_elem_of_fmap.
    apply list_elem_of_fmap. exists n. split; [done|].
    apply elem_of_elements. apply elem_of_elements in Hn.
    by eapply filter_suppressed_mono. }
  assert (Happ : forall l1 l2 k1 k2 : list DarglintError.t,
             l1 ⊆ k1 -> l2 ⊆ k2 -> l1 ++ l2 ⊆ k1 ++ k2).
  { intros l1 l2 k1 k2 H1 H2 e [?|?]%elem_of_app; apply elem_of_app; auto. }
  split_and!; try done.
  - apply Happ; apply Hsets.
  - by apply if_suppressed_mono.
  - by apply if_suppressed_mono.
  - destruct (FunctionDescription.has_return function),
             (get_section d RETURNS_SECTION); try done;
      by apply if_suppressed_mono.
  - by apply if_suppressed_mono.
  - destruct (FunctionDescription.has_yield function),
             (get_section d YIELDS_SECTION); try done;
      by apply if_suppressed_mono.
  - apply Happ; apply Hsets.
Qed.

(** X13: ignoring more codes never brings a new finding.  Two checkers
    that differ in their ignore lists only, one list included in the
    other, run the same unit: every finding appended under the larger
    list is also appended under the smaller one. *)
Theorem larger_ignore_list_adds_no_finding self self' function :
  ignore (config self) ⊆ ignore (config self') ->
  style (config self') = style (config self) ->
  strictness (config self') = strictness (config self) ->
  appended (run_checks error_code from_google from_sphinx function) self'
  ⊆ appended (run_checks error_code from_google from_sphinx function) self.
Proof.
  intros Hsub Hstyle Hstrict.
  pose proof (run_checks_appended_cases self function) as Hcases.
  pose proof (run_checks_appended_cases self' function) as Hcases'.
  rewrite Hstyle in Hcases'.
  destruct (FunctionDescription.docstring function) as [text|] eqn:Hdoc;
    [|by rewrite Hcases, Hcases'].
  destruct (parser _ _ _ _) as [d|err] eqn:Hparse;
    [|by rewrite Hcases, Hcases'].
  assert (Hshort : short_circuits (config self') d
                   = short_circuits (config self) d)
    by (unfold short_circuits; by rewrite Hstrict).
  destruct (short_circuits (config self) d) eqn:Hs.
  { by rewrite (Hcases eq_refl), (Hcases' Hshort). }
  rewrite (run_checks_appended self function text d (set_docstring d self)
             Hdoc Hparse Hs eq_refl eq_refl).
  rewrite <- Hstyle in Hparse.
  rewrite (run_checks_appended self' function text d (set_docstring d self')
             Hdoc Hparse Hshort eq_refl eq_refl).
  rewrite Hstyle.
  destruct (battery_mono (config self) (config self') d function
              (set_docstring d self) (set_docstring d self')
              Hsub eq_refl eq_refl eq_refl eq_refl)
    as (H1 & H2 & H3 & H4 & H5 & H6 & H7 & H8 & H0).
  rewrite H8, H0.
  intros e. rewrite !elem_of_app.
  intros [?|[?|[?|[?|[?|[?|[?|[?|?]]]]]]]]; auto 20.
Qed.

(** *** The two short circuits *)


(** *** Style findings and the same unit twice *)

(** X14: the style pass hands every style error of the docstring over,
    one finding each, in the parser's order, with the unit's function
    node and the parser's line numbers; neither the ignore list nor the
    suppression index is consulted, so two checkers that hold the same
    docstring append the same findings whatever their configurations. *)
Theorem style_errors_pass_through self self' d function :
  docstring self = Some d -> docstring self' = Some d ->
  let out := appended (_check_style function) self in
  length out = length (get_style_errors d)
  /\ (forall (i : nat) StyleError_ line_numbers,
        get_style_errors d !! i = Some (StyleError_, line_numbers) ->
        out !! i = Some (StyleError StyleError_
                                    (FunctionDescription.function function)
                                    line_numbers))
  /\ appended (_check_style function) self' = out.
Proof.
  intros Hd Hd'. cbv zeta.
  rewrite (appends_appended _ _ _ _ self
             (_check_style_appends d (config self) function) Hd eq_refl).
  rewrite (appends_appended _ _ _ _ self'
             (_check_style_appends d (config self') function) Hd' eq_refl).
  split; [by rewrite length_fmap|]. split; [|done].
  intros i c ln Hi. by rewrite list_lookup_fmap, Hi.
Qed.






End Properties.

(** ** The properties on the sample units *)

Lemma suppression_resolver_contract_witness :
  let d := with_noqas {[ "DAR101" := ["a"]; "DAR201" := [] ]} plain_docstring in
  let self := set_docstring d (__init__ default_config false) in
  docstring self = Some d
  /\ _ignore_error sample_code MissingReturn self = (Return true, self)
  /\ _ignore_error sample_code MissingParameter self = (Return false, self)
  /\ _remove_ignored sample_code {[ "a"; "b" ]} MissingParameter self
     = (Return {[ "b" ]}, self).
Proof.
  intros d self.
  pose proof (suppression_resolver_contract sample_code self d MissingReturn
                eq_refl) as (H1 & _).
  pose proof (suppression_resolver_contract sample_code self d MissingParameter
                eq_refl) as (H2 & _ & H3).
  destruct (H3 {[ "a"; "b" ]}) as (H4 & _).
  split; [reflexivity|]. split; [exact H1|]. split; [exact H2|].
  rewrite H4. vm_compute. reflexivity.
Defined.

Lemma parameter_presence_witness :
  let d := with_noqas {[ "DAR101" := ["a"] ]} plain_docstring in
  let self := set_docstring d (__init__ default_config false) in
  let f := with_arguments ["a"; "b"] [None; None]
                          (sample_function "f" 3 "noqa: DAR101 a") in
  docstring self = Some d
  /\ appended (_check_parameters sample_code f) self
     = [MissingParameterError (FunctionDef.mk "f" 3) "b" None].
Proof.
  intros d self f. split; [reflexivity|].
  destruct (parameter_presence sample_code self d f eq_refl)
    as (_ & _ & _ & H).
  apply H; [reflexivity | reflexivity | | reflexivity].
  vm_compute. intros H'. by apply elem_of_nil in H'.
Defined.

(** C5, as stated, fails: with the mismatch code in the ignore list, a
    parameter x declared int and documented str, with no suppression
    entry for x, gets no ParameterTypeMismatch finding. *)
Lemma parameter_type_mismatch_counterexample :
  let cfg := sample_config ["DAR103"] GOOGLE FULL_DESCRIPTION in
  let d := with_items ARGUMENTS_SECTION ["x"] [Some "str"] plain_docstring in
  let self := set_docstring d (__init__ cfg false) in
  let f := with_arguments ["x"] [Some "int"] (sample_function "f" 3 "x: str") in
  FunctionDescription.argument_names f = ["x"]
  /\ FunctionDescription.argument_types f = [Some "int"]
  /\ documented_type d "x" = Some (Some "str")
  /\ ~ name_suppressed d (sample_code ParameterTypeMismatch) "x"
  /\ appended (_check_parameter_types sample_code f) self = []
  /\ appended (sample_run_checks f) (__init__ cfg false) = [].
Proof.
  intros cfg d self f. repeat split.
  intros (names & H & _). vm_compute in H. discriminate.
Qed.

Lemma parameter_type_mismatch_witness :
  let d := with_items ARGUMENTS_SECTION ["x"] [Some "str"] plain_docstring in
  let self := set_docstring d (__init__ default_config false) in
  let f := with_arguments ["x"] [Some "int"] (sample_function "f" 3 "x: str") in
  docstring self = Some d
  /\ appended (_check_parameter_types sample_code f) self
     = [ParameterTypeMismatchError (FunctionDef.mk "f" 3) "x" "int" "str" None].
Proof.
  intros d self f. split; [reflexivity|].
  destruct (parameter_type_mismatch sample_code self d f eq_refl)
    as (_ & _ & H).
  apply H; try reflexivity.
  intros (names & H' & _). vm_compute in H'. discriminate.
Defined.

Lemma return_yield_presence_witness :
  let d := with_returns "str" plain_docstring in
  let self := set_docstring d (__init__ default_config false) in
  let f := yielding (sample_function "f" 3 "returns str") in
  docstring self = Some d
  /\ appended (_check_return sample_code f;; _check_yield sample_code f) self
     = [ExcessReturnError (FunctionDef.mk "f" 3) None;
        MissingYieldError (FunctionDef.mk "f" 3)].
Proof.
  intros d self f. split; [reflexivity|].
  destruct (return_yield_presence sample_code self d f eq_refl)
    as (_ & _ & _ & _ & _ & _ & H).
  apply H; reflexivity.
Defined.

(** C7, as stated, fails: with the mismatch code in the ignore list, a
    unit declared to return int and documented as returning str gets no
    ReturnTypeMismatch finding. *)
Lemma return_type_mismatch_counterexample :
  let cfg := sample_config ["DAR203"] GOOGLE FULL_DESCRIPTION in
  let d := with_returns "str" plain_docstring in
  let self := set_docstring d (__init__ cfg false) in
  let f := returning (Some "int") (sample_function "f" 3 "returns str") in
  FunctionDescription.return_type f = Some "int"
  /\ single_return_type d "str"
  /\ "int" <> "str"
  /\ appended (_check_return_type sample_code f) self = []
  /\ appended (sample_run_checks f) (__init__ cfg false) = [].
Proof. intros cfg d self f. by repeat split. Qed.

Lemma return_type_mismatch_witness :
  let d := with_returns "str" plain_docstring in
  let self := set_docstring d (__init__ default_config false) in
  let f := returning (Some "int") (sample_function "f" 3 "returns str") in
  docstring self = Some d
  /\ appended (_check_return_type sample_code f) self
     = [ReturnTypeMismatchError (FunctionDef.mk "f" 3) "int" "str" None].
Proof.
  intros d self f. split; [reflexivity|].
  destruct (return_type_mismatch sample_code self d f eq_refl)
    as (_ & H & _).
  apply H; by repeat split.
Defined.


(** C1: a code in the ignore list is meant to keep every finding of that
    code out of the error collection.  Under the Sphinx style, with the
    ExcessVariable code ignored, a described variable the function does
    not have is reported all the same: [_check_variables] never asks
    [_ignore_error]. *)
Theorem ignored_excess_variable_is_reported :
  let cfg := sample_config ["DAR501"] SPHINX FULL_DESCRIPTION in
  let f := sample_function "f" 10 "var x" in
  sample_code ExcessVariable ∈ ignore cfg
  /\ ((sample_schedule f;; get_error_report 1 "f.py" None)
        (__init__ cfg false)).1
     = Return (ErrorReport.mk
                 [ExcessVariableError (FunctionDef.mk "f" 10) "x" None]
                 "f.py" 1 None).
Proof.
  intros cfg f. split.
  - apply list_elem_of_singleton. reflexivity.
  - vm_compute. reflexivity.
Qed.


(** Two units scheduled in the order of lines 10 and 5 are reported in
    the order of lines 5 and 10. *)
Example report_of_two_units :
  let f := returning None (sample_function "f" 10 "plain") in
  let g := returning None (sample_function "g" 5 "plain") in
  ((sample_schedule f;; sample_schedule g;;
    get_error_report 1 "m.py" None) (__init__ default_config false)).1
  = Return (ErrorReport.mk
              [MissingReturnError (FunctionDef.mk "g" 5);
               MissingReturnError (FunctionDef.mk "f" 10)]
              "m.py" 1 None).
Proof. by vm_compute. Qed.

(** C9: a checker built with [raise_errors] true is meant to let a fault
    of the docstring parser propagate.  [run_checks] never reads the
    flag: the fault ends the run inside the pool, stays in the task's
    future, and [get_error_report] returns a report as if nothing had
    happened. *)
Theorem strict_mode_does_not_propagate :
  let f := sample_function "f" 10 "unparsable" in
  let strict := __init__ default_config true in
  let outcome :=
    (sample_schedule f;; get_error_report 1 "m.py" None) strict in
  raise_errors strict = true
  /\ (sample_run_checks f strict).1 = Raise (ParserException "unparsable")
  /\ outcome.1 = Return (ErrorReport.mk [] "m.py" 1 None)
  /\ ThreadPoolExecutor.futures (executor outcome.2)
     = [Some (ParserException "unparsable")].
Proof. intros. repeat split. Qed.

Lemma raises_presence_witness :
  let self := set_docstring stale_docstring (__init__ default_config false) in
  let fn := FunctionDef.mk "g" 12 in
  docstring self = Some stale_docstring
  /\ NoDup (appended (_check_raises sample_code stale_function) self)
  /\ MissingRaiseError fn "ValueError"
     ∈ appended (_check_raises sample_code stale_function) self
  /\ ExcessRaiseError fn "KeyError" None
     ∈ appended (_check_raises sample_code stale_function) self.
Proof.
  intros self fn. split; [reflexivity|].
  destruct (raises_presence sample_code self stale_docstring stale_function
                            eq_refl) as (Hnodup & Hin & _).
  split; [exact Hnodup|]. split; apply Hin.
  - left. exists "ValueError". split; [|reflexivity]. by vm_compute.
  - right. exists "KeyError". split; [|reflexivity]. by vm_compute.
Defined.

Lemma excess_variables_only_witness :
  let self := set_docstring stale_docstring (__init__ default_config false) in
  docstring self = Some stale_docstring
  /\ ExcessVariableError (FunctionDef.mk "g" 12) "v" None
     ∈ appended (_check_variables stale_function) self.
Proof.
  intros self. split; [reflexivity|].
  destruct (excess_variables_only self stale_docstring stale_function eq_refl)
    as (_ & Hin & _).
  apply Hin. exists "v". split; [by left|]. split; [|reflexivity].
  by intros ?%elem_of_nil.
Defined.

Lemma parameter_type_missing_witness :
  let self := set_docstring stale_docstring (__init__ default_config false) in
  docstring self = Some stale_docstring
  /\ ParameterTypeMissingError (FunctionDef.mk "g" 12) "y" None
     ∈ appended (_check_parameter_types_missing sample_code stale_function)
                self.
Proof.
  intros self. split; [reflexivity|].
  destruct (parameter_type_missing sample_code self stale_docstring
                                   stale_function eq_refl) as (_ & _ & Hin).
  apply Hin; [reflexivity|]. exists "y". split; [reflexivity|].
  split; [|reflexivity].
  intros (names & H & _). vm_compute in H. discriminate.
Defined.

Lemma run_checks_order_witness :
  let cfg := sample_config [] SPHINX FULL_DESCRIPTION in
  let fn := FunctionDef.mk "g" 12 in
  FunctionDescription.docstring stale_function = Some "stale"
  /\ short_circuits cfg stale_docstring = false
  /\ appended (run_checks sample_code (always stale_docstring)
                          (always stale_docstring) stale_function)
              (__init__ cfg false)
     = [ExcessVariableError fn "v" None;
        MissingParameterError fn "x" None;
        ExcessParameterError fn "y" None;
        ParameterTypeMissingError fn "y" None;
        MissingReturnError fn;
        MissingRaiseError fn "ValueError";
        ExcessRaiseError fn "KeyError" None].
Proof.
  intros cfg fn. split; [reflexivity|]. split; [reflexivity|].
  rewrite (run_checks_order sample_code (always stale_docstring)
             (always stale_docstring) (__init__ cfg false) stale_function
             "stale" stale_docstring
             (set_docstring stale_docstring (__init__ cfg false))
             eq_refl eq_refl eq_refl eq_refl eq_refl).
  vm_compute. reflexivity.
Defined.

Lemma findings_belong_to_unit_witness :
  let cfg := sample_config [] SPHINX FULL_DESCRIPTION in
  let run := run_checks sample_code (always stale_docstring)
                        (always stale_docstring) stale_function in
  let e := MissingReturnError (FunctionDef.mk "g" 12) in
  e ∈ appended run (__init__ cfg false)
  /\ DarglintError.function e = FunctionDescription.function stale_function
  /\ position e = 12%Z.
Proof.
  intros cfg run e.
  assert (He : e ∈ appended run (__init__ cfg false)).
  { vm_compute. do 4 right. left. }
  split; [exact He|].
  exact (findings_belong_to_unit sample_code (always stale_docstring)
           (always stale_docstring) (__init__ cfg false) stale_function e He).
Defined.

Lemma parser_fault_is_isolated_witness :
  let self := __init__ default_config false in
  let faulty := sample_function "f" 10 "unparsable" in
  let g := returning None (sample_function "g" 20 "plain") in
  FunctionDescription.docstring faulty = Some "unparsable"
  /\ parser (sample_parser sample_table) (sample_parser sample_table)
            (style (config self)) "unparsable"
     = Raise (ParserException "unparsable")
  /\ ThreadPoolExecutor._shutdown (executor self) = false
  /\ errors ((sample_schedule faulty;; sample_schedule g) self).2
     = errors (sample_schedule g self).2.
Proof.
  intros self faulty g. split; [reflexivity|]. split; [reflexivity|].
  split; [reflexivity|].
  destruct (parser_fault_is_isolated
              sample_code (sample_parser sample_table)
              (sample_parser sample_table) self faulty "unparsable"
              (ParserException "unparsable") g eq_refl eq_refl eq_refl)
    as (_ & _ & _ & H).
  exact H.
Defined.

Lemma consistent_unit_has_no_findings_witness :
  let cfg := sample_config [] SPHINX FULL_DESCRIPTION in
  FunctionDescription.docstring documented_function = Some "documented"
  /\ consistent SPHINX documented_docstring documented_function
  /\ appended (run_checks sample_code (always documented_docstring)
                          (always documented_docstring) documented_function)
              (__init__ cfg false) = [].
Proof.
  intros cfg. split; [reflexivity|].
  assert (Hc : consistent SPHINX documented_docstring documented_function).
  { split; [reflexivity|]. split.
    { intros [|i] name declared documented Hname Htype Hdoc;
        [|by destruct i].
      injection Hname as <-. injection Htype as <-.
      vm_compute in Hdoc. by injection Hdoc. }
    split.
    { intros name. unfold documented_type. simpl.
      destruct (decide ("x" = name)); discriminate. }
    split; [reflexivity|]. split.
    { intros declared documented Hdecl [Hdoc _].
      injection Hdecl as <-. vm_compute in Hdoc. by injection Hdoc. }
    split; [reflexivity|]. split; [by vm_compute|].
    split; [reflexivity|].
    intros _ n Hn. vm_compute in Hn. discriminate. }
  split; [exact Hc|].
  exact (consistent_unit_has_no_findings
           sample_code (always documented_docstring)
           (always documented_docstring) (__init__ cfg false)
           documented_function "documented" documented_docstring
           eq_refl eq_refl Hc).
Defined.

Lemma google_reports_no_variable_witness :
  let cfg := sample_config [] GOOGLE FULL_DESCRIPTION in
  let run := run_checks sample_code (always stale_docstring)
                        (always stale_docstring) stale_function in
  let e := MissingReturnError (FunctionDef.mk "g" 12) in
  style (config (__init__ cfg false)) = GOOGLE
  /\ e ∈ appended run (__init__ cfg false)
  /\ DarglintError.cls e <> ExcessVariable.
Proof.
  intros cfg run e. split; [reflexivity|].
  assert (He : e ∈ appended run (__init__ cfg false)).
  { vm_compute. do 3 right. left. }
  split; [exact He|].
  exact (google_reports_no_variable
           sample_code (always stale_docstring) (always stale_docstring)
           (__init__ cfg false) stale_function e eq_refl He).
Defined.

Lemma larger_ignore_list_adds_no_finding_witness :
  let smaller := sample_config [] SPHINX FULL_DESCRIPTION in
  let larger := sample_config ["DAR201"; "DAR401"] SPHINX FULL_DESCRIPTION in
  let run := run_checks sample_code (always stale_docstring)
                        (always stale_docstring) stale_function in
  ignore smaller ⊆ ignore larger
  /\ appended run (__init__ larger false)
     ⊆ appended run (__init__ smaller false).
Proof.
  intros smaller larger run.
  assert (Hsub : ignore smaller ⊆ ignore larger)
    by (by intros x ?%elem_of_nil).
  split; [exact Hsub|].
  exact (larger_ignore_list_adds_no_finding
           sample_code (always stale_docstring) (always stale_docstring)
           (__init__ smaller false) (__init__ larger false) stale_function
           Hsub eq_refl eq_refl).
Defined.

Lemma style_errors_pass_through_witness :
  let self := set_docstring untidy_docstring (__init__ default_config false) in
  let self' :=
    set_docstring untidy_docstring
                  (__init__ (sample_config ["S001"; "S002"] SPHINX
                                           ANY_DESCRIPTION)
                            true) in
  let fn := FunctionDef.mk "g" 12 in
  docstring self = Some untidy_docstring
  /\ docstring self' = Some untidy_docstring
  /\ length (appended (_check_style stale_function) self) = 2%nat
  /\ appended (_check_style stale_function) self !! 0%nat
     = Some (StyleError "S001" fn (Some (2, 3)%Z))
  /\ appended (_check_style stale_function) self !! 1%nat
     = Some (StyleError "S002" fn None)
  /\ appended (_check_style stale_function) self'
     = appended (_check_style stale_function) self.
Proof.
  intros self self' fn. split; [reflexivity|]. split; [reflexivity|].
  destruct (style_errors_pass_through self self' untidy_docstring
                                      stale_function eq_refl eq_refl)
    as (Hlen & Hnth & Hsame).
  split; [exact Hlen|].
  split; [exact (Hnth 0%nat "S001" (Some (2, 3)%Z) eq_refl)|].
  split; [exact (Hnth 1%nat "S002" None eq_refl)|].
  exact Hsame.
Defined.

